(** * E-Library portal: data fixtures and request handlers

    A shallow embedding of [src/data.js]: the user and library fixtures
    (the [data.js] part) and the Express application built on them (the
    [server.js] part): the role guard [checkRole], the login, logout and
    signup handlers, the role dashboards, the chat proxy and the final
    404 handler.

    Conventions.
    - A JavaScript string is a [string] holding its UTF-8 bytes; [===] on
      strings is equality of these bytes.
    - A parsed request body is a finite map from field names to text, as
      the forms of the application post it; a field that was not submitted
      is absent from the map. A field that holds anything but text (an
      array from a repeated key, a number in a JSON body) is modelled for
      [POST /chat] only, the route that is sent JSON: its body maps a name
      to a [Field].
    - The handlers read and write two things: the module-level [users]
      array and the [req.session] object of the request being served.
      [State] holds both.
    - The [xss] package and the OpenAI client are not part of the
      repository; they are section variables.
    - Console output is not modelled. [GET /signup/:role] and the chat
      proxy stand beside the dispatch of the other routes: the first takes
      [toLowerCase] as a variable, the second the completion service. *)

From Stdlib Require Import ZArith List Ascii String Bool.
From stdpp Require Import gmap strings list.

Local Open Scope string_scope.
Local Open Scope Z_scope.

(** ** JavaScript strings *)

Module JsString.

Definition code (a : ascii) : N := N_of_ascii a.

(** One-byte white space and line terminators: TAB, LF, VT, FF, CR, SP. *)
Definition ws1 (a : ascii) : bool :=
  (((9 <=? code a) && (code a <=? 13)) || (code a =? 32))%N.

(** U+00A0 (no-break space), encoded on two bytes. *)
Definition ws2 (a b : ascii) : bool :=
  ((code a =? 194) && (code b =? 160))%N.

(** The three-byte ones: U+1680, U+2000..U+200A, U+2028, U+2029, U+202F,
    U+205F, U+3000 and U+FEFF. *)
Definition ws3 (a b c : ascii) : bool :=
  (((code a =? 225) && (code b =? 154) && (code c =? 128))
   || ((code a =? 226) && (code b =? 128)
       && (((128 <=? code c) && (code c <=? 138))
           || (code c =? 168) || (code c =? 169) || (code c =? 175)))
   || ((code a =? 226) && (code b =? 129) && (code c =? 159))
   || ((code a =? 227) && (code b =? 128) && (code c =? 128))
   || ((code a =? 239) && (code b =? 187) && (code c =? 191)))%N.

(** Drop white space from the front, given how to recognise a white-space
    character from its first one, two or three bytes. *)
Fixpoint strip (w1 : ascii → bool) (w2 : ascii → ascii → bool)
    (w3 : ascii → ascii → ascii → bool) (s : string) : string :=
  match s with
  | EmptyString => EmptyString
  | String a s1 =>
      if w1 a then strip w1 w2 w3 s1
      else
        match s1 with
        | EmptyString => s
        | String b s2 =>
            if w2 a b then strip w1 w2 w3 s2
            else
              match s2 with
              | EmptyString => s
              | String c s3 => if w3 a b c then strip w1 w2 w3 s3 else s
              end
        end
  end.

Definition reverse (s : string) : string :=
  string_of_list_ascii (rev (list_ascii_of_string s)).

Definition trimStart (s : string) : string := strip ws1 ws2 ws3 s.

(** The same scan on the reversed string, the bytes of a character being
    met last to first. *)
Definition trimEnd (s : string) : string :=
  reverse (strip ws1 (λ b a, ws2 a b) (λ c b a, ws3 a b c) (reverse s)).

(** [String.prototype.trim] *)
Definition trim (s : string) : string := trimEnd (trimStart s).

(** [Array.prototype.join] on an array of strings *)
Fixpoint join (sep : string) (l : list string) : string :=
  match l with
  | [] => ""
  | [x] => x
  | x :: rest => x +:+ sep +:+ join sep rest
  end.

(** [Array.prototype.includes] on an array of strings *)
Definition includes (l : list string) (x : string) : bool :=
  existsb (String.eqb x) l.

(** [s] occurs in [t] *)
Definition occurs_in (s t : string) : Prop :=
  ∃ pre post, t = pre +:+ s +:+ post.

(** Truthiness of a string: every string but the empty one. *)
Definition truthy (s : string) : bool := negb (String.eqb s "").

(** No byte of [s] is an angle bracket. *)
Fixpoint plain (s : string) : bool :=
  match s with
  | EmptyString => true
  | String a r => negb ((code a =? 60) || (code a =? 62))%N && plain r
  end.

(** A sanitizer in the style of the package: it rewrites the two angle
    brackets as character references and keeps every other byte. *)
Fixpoint escapeHtml (s : string) : string :=
  match s with
  | EmptyString => EmptyString
  | String a r =>
      if (code a =? 60)%N then "&lt;" +:+ escapeHtml r
      else if (code a =? 62)%N then "&gt;" +:+ escapeHtml r
      else String a (escapeHtml r)
  end.

End JsString.

(** ** data.js *)

(** One entry of [performance]. [gpa] is the literal scaled by ten (72 for
    7.2); no handler computes with it. *)
Record Performance := { sem : Z; gpa : Z }.

(** A user record. The fields after [profilePic] are the ones only some
    records carry; [None] is a property the object does not have. *)
Record User := {
  roll : string;
  password : string;
  name : string;
  role : string;
  profilePic : string;
  universityRoll : option string;
  semester : option Z;
  college : option string;
  performance : option (list Performance);
  reportCards : option (gmap string string);
  classAssigned : option string
}.

Record Book := { title : string; issueDate : string; returnDate : string }.

Record Resource := {
  type : string; subject : string; topic : string; downloadUrl : string
}.

Record LibraryData := { issuedBooks : list Book; resources : list Resource }.

#[global] Instance Performance_eq_dec : EqDecision Performance.
Proof. solve_decision. Defined.
#[global] Instance User_eq_dec : EqDecision User.
Proof. solve_decision. Defined.
#[global] Instance Book_eq_dec : EqDecision Book.
Proof. solve_decision. Defined.

Definition john_doe : User := {|
  roll := "22111234";
  password := "pass123";
  name := "John Doe";
  role := "student";
  profilePic := "/assets/profile-placeholder.png";
  universityRoll := Some "12345623145";
  semester := Some 6;
  college := Some "ABC College";
  performance := Some [ {| sem := 1; gpa := 72 |}; {| sem := 2; gpa := 75 |};
                        {| sem := 3; gpa := 78 |}; {| sem := 4; gpa := 80 |};
                        {| sem := 5; gpa := 82 |}; {| sem := 6; gpa := 85 |} ];
  reportCards := Some {[ "1" := "/assets/marksheets/sem1.pdf" ]};
  classAssigned := None
|}.

Definition admin001 : User := {|
  roll := "admin001";
  password := "adminpass";
  name := "System Administrator";
  role := "admin";
  profilePic := "/assets/profile-placeholder.png";
  universityRoll := None; semester := None; college := None;
  performance := None; reportCards := None; classAssigned := None
|}.

Definition lib001 : User := {|
  roll := "lib001";
  password := "libpass";
  name := "College Librarian";
  role := "librarian";
  profilePic := "/assets/profile-placeholder.png";
  universityRoll := None; semester := None; college := None;
  performance := None; reportCards := None; classAssigned := None
|}.

Definition teacher101 : User := {|
  roll := "teacher101";
  password := "teachpass";
  name := "Professor Smith";
  role := "teacher";
  profilePic := "/assets/profile-placeholder.png";
  universityRoll := None; semester := None; college := None;
  performance := None; reportCards := None;
  classAssigned := Some "B.Tech 6th Sem"
|}.

(** The [users] array as the module is loaded. *)
Definition users0 : list User := [john_doe; admin001; lib001; teacher101].

Definition libraryData : LibraryData := {|
  issuedBooks :=
    [ {| title := "DBMS"; issueDate := "2025-11-10"; returnDate := "2025-12-10" |};
      {| title := "Operating Systems"; issueDate := "2025-11-15";
         returnDate := "2025-12-15" |} ];
  resources :=
    [ {| type := "Notes"; subject := "Computer Networks"; topic := "OSI Model";
         downloadUrl := "/assets/ebooks/cn-osi.pdf" |};
      {| type := "PYQ"; subject := "Algorithms"; topic := "Greedy";
         downloadUrl := "/assets/ebooks/algo-greedy.pdf" |} ]
|}.

(** ** The Express application *)

Record IssueRecords := {
  studentName : string; studentRoll : string; books : list Book
}.

(** What a handler hands to a view or leaves in a response. *)
Inductive Value :=
| VNull
| VUndefined
| VString (s : string)
| VUser (u : User)
| VUsers (l : list User)
| VLibrary (d : LibraryData)
| VIssue (r : IssueRecords).

(** [res.redirect], [res.status(..).render(view, data)],
    [res.status(..).send(text)] and [res.status(..).json(object)]; the
    status is 200 where the source sets none. [Uncaught] is an exception
    that leaves a synchronous handler. *)
Inductive Response :=
| Redirect (location : string)
| Render (status : Z) (view : string) (data : list (string * Value))
| Send (status : Z) (text : string)
| Json (status : Z) (object : list (string * Value))
| Uncaught (what : string).

(** A computation that returns or throws. *)
Inductive Outcome (A : Type) :=
| Returned (a : A)
| Thrown (error : string).
Arguments Returned {A} a.
Arguments Thrown {A} error.

#[global] Instance Outcome_ret : MRet Outcome := λ A a, Returned a.
#[global] Instance Outcome_bind : MBind Outcome := λ A B f m,
  match m with
  | Returned a => f a
  | Thrown e => Thrown e
  end.

(** [try { block } catch (err) { handler }] *)
Definition try_catch {A} (block : Outcome A) (handler : string → Outcome A) : Outcome A :=
  match block with
  | Returned a => Returned a
  | Thrown err => handler err
  end.

(** The chat-completion service as the handler sees it: the request it
    sends and the object a fulfilled call hands back. The array of choices
    can be empty, a choice can come without a message, and a message can
    come without a content, or with text or [null] as its content. *)
Module OpenAI.
Record Message := { role : string; content : string }.
Record Params := { model : string; messages : list Message }.
Inductive Content := NoContent | NullContent | TextContent (text : string).
Record ReplyMessage := { reply_content : Content }.
Record Choice := { message : option ReplyMessage }.
Record Completion := { choices : list Choice }.
End OpenAI.

(** [req.session]: the only property the application keeps there. *)
Record Session := { user : option User }.

Record State := { users : list User; session : Session }.

Record Request := { body : gmap string string; originalUrl : string }.

Inductive Step := Next | Respond (r : Response).

Definition Middleware : Type := Request → State → Step.
Definition Handler : Type := Request → State → Response * State.

(** [app.get(path, m1, ..., handler)]: the middlewares run in order, each
    one either calling [next] or answering. *)
Fixpoint route (ms : list Middleware) (h : Handler) : Handler :=
  λ req st,
    match ms with
    | [] => h req st
    | m :: rest =>
        match m req st with
        | Next => route rest h req st
        | Respond r => (r, st)
        end
    end.

(** The property [key] of an object literal handed to a view. *)
Fixpoint property (key : string) (data : list (string * Value)) : option Value :=
  match data with
  | [] => None
  | (k, v) :: rest => if String.eqb k key then Some v else property key rest
  end.

Definition denied (requiredRoles : list string) : string :=
  "Access Denied: You do not have **" +:+ JsString.join " or " requiredRoles
  +:+ "** permissions for this page.".

Definition checkRole (requiredRoles : list string) : Middleware :=
  λ req st,
    match user (session st) with
    | None => Respond (Redirect "/login")
    | Some u =>
        let userRole := role u in
        if JsString.includes requiredRoles userRole then Next
        else Respond (Render 403 "home"
                        [("page", VString "home");
                         ("error", VString (denied requiredRoles))])
    end.

(** The [switch] that ends both the login and the signup handler. *)
Definition landing (r : string) : string :=
  if String.eqb r "admin" then "/admin/dashboard"
  else if String.eqb r "librarian" then "/librarian/control"
  else if String.eqb r "teacher" then "/teacher/class"
  else "/student".

Definition text_or_undefined (o : option string) : Value :=
  match o with Some s => VString s | None => VUndefined end.

Definition user_or_undefined (o : option User) : Value :=
  match o with Some u => VUser u | None => VUndefined end.

(** A property of a parsed JSON body, as far as a handler that tests it
    and calls [trim] on it can tell: text, a falsy value that is not text
    ([null], [false], [0]), or a truthy one ([true], another number, an
    array, an object). *)
Inductive Field :=
| FText (s : string)
| FFalsy
| FTruthy.

(** What [res.json] sends of an object: [JSON.stringify] leaves out the
    properties whose value is [undefined]. *)
Definition stringified (object : list (string * Value)) : list (string * Value) :=
  List.filter (λ kv, match snd kv with VUndefined => false | _ => true end) object.

Inductive Endpoint :=
| GET_home
| GET_login
| POST_login
| POST_logout
| GET_signup
| POST_signup
| GET_student
| GET_library
| GET_guidance
| GET_admin_dashboard
| POST_admin_search
| GET_librarian_control
| POST_librarian_search_student
| GET_teacher_class
| Unmatched.

Section Server.

(** The sanitizer of the [xss] package. *)
Variable xss : string → string.

(** [field ? xss(field.trim()) : dflt] *)
Definition sanitized (field : option string) (dflt : string) : string :=
  match field with
  | Some s => if JsString.truthy s then xss (JsString.trim s) else dflt
  | None => dflt
  end.

Definition get_home : Handler := λ req st,
  (Render 200 "home" [("page", VString "home"); ("error", VNull)], st).

Definition get_login : Handler := λ req st,
  (Render 200 "login" [("page", VString "login"); ("error", VNull)], st).

Definition post_login : Handler := λ req st,
  let roll_ := sanitized (body req !! "roll") "" in
  let password_ := sanitized (body req !! "password") "" in
  match List.find (λ u, String.eqb (roll u) roll_
                        && String.eqb (password u) password_) (users st) with
  | Some found =>
      (Redirect (landing (role found)),
       {| users := users st; session := {| user := Some found |} |})
  | None =>
      (Render 200 "login" [("page", VString "login");
                           ("error", VString "Invalid roll or password")], st)
  end.

Definition post_logout : Handler := λ req st,
  (Redirect "/", {| users := users st; session := {| user := None |} |}).

Definition get_signup : Handler := λ req st,
  (Render 200 "signup-select" [("page", VString "signup")], st).

(** The record [POST /signup] builds from the sanitized fields. *)
Definition newUser (req : Request) (name_ roll_ password_ role_ : string) : User :=
  if String.eqb role_ "student" then
    {| name := name_; roll := roll_; password := password_; role := role_;
       profilePic := "/assets/profile-placeholder.png";
       universityRoll := Some (sanitized (body req !! "universityRoll") "");
       semester := Some 1;
       college := Some "N/A";
       performance := Some [];
       reportCards := Some ∅;
       classAssigned := None |}
  else if String.eqb role_ "teacher" then
    {| name := name_; roll := roll_; password := password_; role := role_;
       profilePic := "/assets/profile-placeholder.png";
       universityRoll := None; semester := None; college := None;
       performance := None; reportCards := None;
       classAssigned := Some "B.Tech 6th Sem (Default)" |}
  else
    {| name := name_; roll := roll_; password := password_; role := role_;
       profilePic := "/assets/profile-placeholder.png";
       universityRoll := None; semester := None; college := None;
       performance := None; reportCards := None; classAssigned := None |}.

Definition post_signup : Handler := λ req st,
  let name_ := sanitized (body req !! "name") "" in
  let roll_ := sanitized (body req !! "roll") "" in
  let password_ := sanitized (body req !! "password") "" in
  let role_ := sanitized (body req !! "role") "student" in
  match List.find (λ u, String.eqb (roll u) roll_) (users st) with
  | Some existingUser =>
      (Render 200 "signup-form"
         [("page", VString "signup");
          ("selectedRole", VString role_);
          ("error", VString "Roll number already registered.")], st)
  | None =>
      let nu := newUser req name_ roll_ password_ role_ in
      (Redirect (landing role_),
       {| users := users st ++ [nu]; session := {| user := Some nu |} |})
  end.

Definition get_student : Handler := λ req st,
  (Render 200 "student"
     [("page", VString "student");
      ("student", user_or_undefined (user (session st)))], st).

Definition get_library : Handler := λ req st,
  (Render 200 "library"
     [("page", VString "library"); ("libraryData", VLibrary libraryData)], st).

Definition get_guidance : Handler := λ req st,
  (Render 200 "guidance" [("page", VString "guidance")], st).

Definition get_admin_dashboard : Handler := λ req st,
  (Render 200 "admin/dashboard"
     [("page", VString "admin"); ("foundStudent", VNull);
      ("searchQuery", VNull)], st).

(** [users.find(u => u.roll === sanitizedRoll && u.role === 'student')] *)
Definition find_student (sanitizedRoll : string) (us : list User) : option User :=
  List.find (λ u, String.eqb (roll u) sanitizedRoll
                  && String.eqb (role u) "student") us.

Definition post_admin_search : Handler := λ req st,
  let roll_ := body req !! "roll" in
  let sanitizedRoll := sanitized roll_ "" in
  let student := find_student sanitizedRoll (users st) in
  (Render 200 "admin/dashboard"
     [("page", VString "admin");
      ("foundStudent", user_or_undefined student);
      ("searchQuery", text_or_undefined roll_)], st).

Definition get_librarian_control : Handler := λ req st,
  (Render 200 "librarian/control"
     [("page", VString "librarian");
      ("libraryData", VLibrary libraryData);
      ("studentIssueRecords", VNull);
      ("searchRoll", VNull)], st).

Definition post_librarian_search_student : Handler := λ req st,
  let roll_ := body req !! "roll" in
  let sanitizedRoll := sanitized roll_ "" in
  let student := find_student sanitizedRoll (users st) in
  let issueRecords :=
    match student with
    | Some s =>
        VIssue {| studentName := name s;
                  studentRoll := roll s;
                  books := if String.eqb (roll s) "22111234"
                           then issuedBooks libraryData else [] |}
    | None => VNull
    end in
  (Render 200 "librarian/control"
     [("page", VString "librarian");
      ("libraryData", VLibrary libraryData);
      ("studentIssueRecords", issueRecords);
      ("searchRoll", text_or_undefined roll_)], st).

Definition assignedSemester : Z := 6.

Definition in_class (u : User) : bool :=
  String.eqb (role u) "student" && bool_decide (semester u = Some assignedSemester).

Definition get_teacher_class : Handler := λ req st,
  match user (session st) with
  | Some teacher =>
      let classStudents := List.filter in_class (users st) in
      (Render 200 "teacher/class"
         [("page", VString "teacher");
          ("teacher", VUser teacher);
          ("classStudents", VUsers classStudents);
          ("assignedClass", text_or_undefined (classAssigned teacher))], st)
  | None =>
      (Uncaught "TypeError: Cannot read properties of undefined (reading 'classAssigned')", st)
  end.

(** The final [app.use]: no route matched. *)
Definition not_found : Handler := λ req st,
  (Render 404 "home"
     [("page", VString "error");
      ("error", VString ("404: The page you requested (" +:+ originalUrl req
                         +:+ ") was not found."))], st).

(** The routes as they are registered: the guards of each, and its
    handler. *)
Definition stack (e : Endpoint) : list Middleware * Handler :=
  match e with
  | GET_home => ([], get_home)
  | GET_login => ([], get_login)
  | POST_login => ([], post_login)
  | POST_logout => ([], post_logout)
  | GET_signup => ([], get_signup)
  | POST_signup => ([], post_signup)
  | GET_student => ([checkRole ["student"]], get_student)
  | GET_library => ([checkRole ["student"; "librarian"; "admin"]], get_library)
  | GET_guidance => ([checkRole ["student"; "teacher"; "admin"]], get_guidance)
  | GET_admin_dashboard => ([checkRole ["admin"]], get_admin_dashboard)
  | POST_admin_search => ([checkRole ["admin"]], post_admin_search)
  | GET_librarian_control => ([checkRole ["librarian"]], get_librarian_control)
  | POST_librarian_search_student =>
      ([checkRole ["librarian"]], post_librarian_search_student)
  | GET_teacher_class => ([checkRole ["teacher"]], get_teacher_class)
  | Unmatched => ([], not_found)
  end.

Definition serve (e : Endpoint) : Handler :=
  route (fst (stack e)) (snd (stack e)).

(** What the client gets back. The middleware registered before the
    routes copies [req.session.user], as the request finds it, into
    [res.locals.user], where every view can read it. *)
Record Served := {
  response : Response;
  localsUser : option User;
  after : State
}.

Definition app (e : Endpoint) (req : Request) (st : State) : Served :=
  let seen := user (session st) in
  let '(r, st') := serve e req st in
  {| response := r; localsUser := seen; after := st' |}.

(** The [users] arrays the running application can hold. *)
Inductive reachable : list User → Prop :=
| reachable_start : reachable users0
| reachable_serve e req us s :
    reachable us →
    reachable (users (snd (serve e req {| users := us; session := s |}))).

(** *** The chat proxy *)

(** [openai.chat.completions.create], awaited: the call is fulfilled with
    a completion or rejected. *)
Variable create : OpenAI.Params → Outcome OpenAI.Completion.

Definition counselor : string :=
  "You are an expert Career Development Counselor for college students. Your role is to provide personalized roadmaps, detailed guidance, necessary resources.".

Definition chat_params (userMsg : string) : OpenAI.Params :=
  {| OpenAI.model := "gpt-3.5-turbo";
     OpenAI.messages :=
       [ {| OpenAI.role := "system"; OpenAI.content := counselor |};
         {| OpenAI.role := "user"; OpenAI.content := userMsg |} ] |}.

(** [completion.choices[0].message.content]: reading a property of
    [undefined] throws; a property the object does not have reads as
    [undefined]. *)
Definition first_content (completion : OpenAI.Completion) : Outcome Value :=
  match OpenAI.choices completion with
  | [] => Thrown "TypeError: Cannot read properties of undefined (reading 'message')"
  | choice :: _ =>
      match OpenAI.message choice with
      | None => Thrown "TypeError: Cannot read properties of undefined (reading 'content')"
      | Some m =>
          Returned (match OpenAI.reply_content m with
                    | OpenAI.TextContent text => VString text
                    | OpenAI.NullContent => VNull
                    | OpenAI.NoContent => VUndefined
                    end)
      end
  end.

Definition apology : string := "Sorry — something went wrong.".

(** [req.body.message ? xss(req.body.message.trim()) : ''], the statement
    before the [try]: a truthy value that is not text has no [trim]. *)
Definition chat_message (fields : gmap string Field) : Outcome string :=
  match fields !! "message" with
  | Some (FText s) => Returned (sanitized (Some s) "")
  | Some FFalsy | None => Returned ""
  | Some FTruthy => Thrown "TypeError: req.body.message.trim is not a function"
  end.

(** [POST /chat], on the parsed JSON body. [Thrown] is the rejection of
    the promise the [async] handler returns: no response is sent. *)
Definition post_chat (fields : gmap string Field) : Outcome Response :=
  userMsg ← chat_message fields;
  try_catch
    (completion ← create (chat_params userMsg);
     reply ← first_content completion;
     mret (Json 200 (stringified [("reply", reply)])))
    (λ err, mret (Json 500 [("reply", VString apology)])).

(** *** Vocabulary of the contracts *)

(** The sanitized fields of a signup request. *)
Definition roll_of (req : Request) : string := sanitized (body req !! "roll") "".
Definition password_of (req : Request) : string :=
  sanitized (body req !! "password") "".
Definition role_of (req : Request) : string :=
  sanitized (body req !! "role") "student".

(** The record a successful signup appends. *)
Definition signed_up (req : Request) : User :=
  newUser req (sanitized (body req !! "name") "")
    (roll_of req) (password_of req) (role_of req).

Definition already_registered (req : Request) : Response :=
  Render 200 "signup-form"
    [("page", VString "signup");
     ("selectedRole", VString (role_of req));
     ("error", VString "Roll number already registered.")].

(** The answer to a login that matches no record. *)
Definition login_failed : Response :=
  Render 200 "login" [("page", VString "login");
                      ("error", VString "Invalid roll or password")].

(** No record carries both the roll and the password submitted. *)
Definition no_match (req : Request) (us : list User) : Prop :=
  ∀ u, u ∈ us →
    ¬ (roll u = sanitized (body req !! "roll") ""
       ∧ password u = sanitized (body req !! "password") "").

End Server.

(** A field that is absent, or is text that [trim] empties. *)
Definition blank (field : option string) : Prop :=
  field = None ∨ ∃ s, field = Some s ∧ JsString.trim s = "".

(** [k] is [l] with exactly the elements that satisfy [P] kept, in the
    order of [l]. *)
Inductive selects {A} (P : A → Prop) : list A → list A → Prop :=
| selects_nil : selects P [] []
| selects_keep x l k : P x → selects P l k → selects P (x :: l) (x :: k)
| selects_skip x l k : ¬ P x → selects P l k → selects P (x :: l) k.

(** The [reply] a message gives. *)
Definition reply_of (m : OpenAI.ReplyMessage) : Value :=
  match OpenAI.reply_content m with
  | OpenAI.TextContent text => VString text
  | OpenAI.NullContent => VNull
  | OpenAI.NoContent => VUndefined
  end.

(** The text [POST /chat] forwards when the [message] field is text, falsy
    or absent. *)
Definition forwarded (xss : string → string) (fields : gmap string Field) : string :=
  match fields !! "message" with
  | Some (FText s) => sanitized xss (Some s) ""
  | _ => ""
  end.

(** ** Sample requests and states *)

(** A body with the given fields. *)
Definition form (fields : list (string * string)) (url : string) : Request :=
  {| body := list_to_map fields; originalUrl := url |}.

Definition anonymous : Session := {| user := None |}.
Definition signed_in (u : User) : Session := {| user := Some u |}.

(** The application as it starts, seen from a session. *)
Definition start (s : Session) : State := {| users := users0; session := s |}.

Definition login_john : Request :=
  form [("roll", "22111234"); ("password", "pass123")] "/login".
Definition login_wrong_password : Request :=
  form [("roll", "22111234"); ("password", "letmein")] "/login".
Definition login_unknown : Request :=
  form [("roll", "99999999"); ("password", "pass123")] "/login".
Definition login_blank : Request := form [] "/login".

Definition signup_john_again : Request :=
  form [("name", "Johnny"); ("roll", " 22111234 "); ("password", "other");
        ("role", "student")] "/signup".
Definition signup_jane : Request :=
  form [("name", "Jane Roe"); ("roll", "22115678"); ("password", "secret");
        ("role", "student"); ("universityRoll", "12345600001")] "/signup".
Definition signup_superuser : Request :=
  form [("name", "Mallory"); ("roll", "m001"); ("password", "secret");
        ("role", " superuser ")] "/signup".
Definition signup_blank : Request :=
  form [("name", "Nobody"); ("roll", "   ")] "/signup".

Definition jane : User := signed_up JsString.escapeHtml signup_jane.

Definition search (r : string) : Request :=
  form [("roll", r)] "/librarian/search-student".

Definition page (url : string) : Request := form [] url.

(** A completion service that answers every request with one fixed text,
    and one that is down. *)
Definition answering (text : string) : OpenAI.Params → Outcome OpenAI.Completion :=
  λ _, Returned {| OpenAI.choices :=
                     [ {| OpenAI.message :=
                            Some {| OpenAI.reply_content := OpenAI.TextContent text |} |} ] |}.
Definition unreachable : OpenAI.Params → Outcome OpenAI.Completion :=
  λ _, Thrown "Error: Connection error.".


(** ** The routing table and the session over time *)

Inductive Method := GET | POST.

(** The method and the path each endpoint is registered with; the final
    handler has neither. *)
Definition registered (e : Endpoint) : option (Method * string) :=
  match e with
  | GET_home => Some (GET, "/")
  | GET_login => Some (GET, "/login")
  | POST_login => Some (POST, "/login")
  | POST_logout => Some (POST, "/logout")
  | GET_signup => Some (GET, "/signup")
  | POST_signup => Some (POST, "/signup")
  | GET_student => Some (GET, "/student")
  | GET_library => Some (GET, "/library")
  | GET_guidance => Some (GET, "/guidance")
  | GET_admin_dashboard => Some (GET, "/admin/dashboard")
  | POST_admin_search => Some (POST, "/admin/search")
  | GET_librarian_control => Some (GET, "/librarian/control")
  | POST_librarian_search_student => Some (POST, "/librarian/search-student")
  | GET_teacher_class => Some (GET, "/teacher/class")
  | Unmatched => None
  end.

(** The roles some guard of the application admits. *)
Definition known_roles : list string := ["student"; "admin"; "librarian"; "teacher"].

Section SignupForm.

(** [String.prototype.toLowerCase] *)
Variable toLowerCase : string → string.

Definition validRoles : list string := ["student"; "teacher"; "librarian"].

(** [GET /signup/:role]; [roleParam] is [req.params.role]. *)
Definition get_signup_role (roleParam : string) : Handler := λ req st,
  let role_ := toLowerCase roleParam in
  if negb (JsString.includes validRoles role_) then
    (Send 404 "Invalid role selected. Please return to the signup page to choose a valid role.", st)
  else
    (Render 200 "signup-form"
       [("page", VString "signup");
        ("selectedRole", VString role_);
        ("error", VNull)], st).

End SignupForm.

(** Lower-casing of the letters A to Z, every other byte kept: what
    [toLowerCase] does on text of the Basic Latin block. *)
Definition lower_byte (a : ascii) : ascii :=
  if ((65 <=? JsString.code a) && (JsString.code a <=? 90))%N
  then ascii_of_N (JsString.code a + 32)
  else a.

Fixpoint lower_latin (s : string) : string :=
  match s with
  | EmptyString => EmptyString
  | String a r => String (lower_byte a) (lower_latin r)
  end.

Section Sessions.

Variable xss : string → string.

(** The states one browser session goes through: its own requests, the
    requests other sessions send in between, which reach it through the
    shared [users] array only, and the expiry of its cookie, after which
    the next request finds an empty session. *)
Inductive session_trace : State → Prop :=
| trace_start : session_trace {| users := users0; session := {| user := None |} |}
| trace_own e req st :
    session_trace st → session_trace (snd (serve xss e req st))
| trace_other e req other st :
    session_trace st →
    session_trace
      {| users := users (snd (serve xss e req {| users := users st; session := other |}));
         session := session st |}
| trace_expired st :
    session_trace st →
    session_trace {| users := users st; session := {| user := None |} |}.

End Sessions.

(** [s] begins with a character the recognisers take for white space. *)
Definition starts_ws (w1 : ascii → bool) (w2 : ascii → ascii → bool)
    (w3 : ascii → ascii → ascii → bool) (s : string) : bool :=
  match s with
  | EmptyString => false
  | String a s1 =>
      w1 a
      || match s1 with
         | EmptyString => false
         | String b s2 =>
             w2 a b
             || match s2 with
                | EmptyString => false
                | String c _ => w3 a b c
                end
         end
  end.

(** More sample requests. *)
Definition signup_admin : Request :=
  form [("name", "Eve"); ("roll", "e001"); ("password", "pw"); ("role", "admin")]
    "/signup".
Definition signup_teacher : Request :=
  form [("name", "Trent"); ("roll", "t202"); ("password", "pw"); ("role", "teacher")]
    "/signup".
Definition login_jane : Request :=
  form [("roll", "22115678"); ("password", "secret")] "/login".
Definition login_john_padded : Request :=
  form [("roll", "  22111234 "); ("password", " pass123")] "/login".

(** The collection once Jane has signed up. *)
Definition with_jane : list User := users0 ++ [jane].

(** ** Facts about the string and array primitives *)

Lemma append_cons (x : ascii) (a b : string) :
  String x a +:+ b = String x (a +:+ b).
Proof. reflexivity. Qed.

Lemma append_assoc (a b c : string) : (a +:+ b) +:+ c = a +:+ (b +:+ c).
Proof.
  induction a as [|x a IH]; [reflexivity|].
  now rewrite !append_cons, IH.
Qed.

Lemma append_empty_r (a : string) : a +:+ "" = a.
Proof.
  induction a as [|x a IH]; [reflexivity|].
  now rewrite append_cons, IH.
Qed.

Lemma occurs_in_wrap (r t pre post : string) :
  JsString.occurs_in r t → JsString.occurs_in r (pre +:+ t +:+ post).
Proof.
  intros (p & q & ->). exists (pre +:+ p), (q +:+ post).
  now rewrite !append_assoc.
Qed.

Lemma occurs_in_join (sep : string) (R : list string) (r : string) :
  r ∈ R → JsString.occurs_in r (JsString.join sep R).
Proof.
  induction R as [|x rest IH]; intros Hin.
  - inversion Hin.
  - apply elem_of_cons in Hin as [-> | Hin].
    + destruct rest as [|y rest'].
      * exists "", "". change (x = x +:+ ""). now rewrite append_empty_r.
      * exists "", (sep +:+ JsString.join sep (y :: rest')). reflexivity.
    + destruct rest as [|y rest']; [inversion Hin|].
      specialize (IH Hin).
      change (JsString.join sep (x :: y :: rest'))
        with (x +:+ sep +:+ JsString.join sep (y :: rest')).
      rewrite <- append_assoc.
      destruct IH as (p & q & ->).
      exists ((x +:+ sep) +:+ p), q. now rewrite !append_assoc.
Qed.

Lemma includes_true (R : list string) (x : string) :
  JsString.includes R x = true ↔ x ∈ R.
Proof.
  unfold JsString.includes. rewrite existsb_exists. split.
  - intros (y & Hy & Heq). apply String.eqb_eq in Heq as ->.
    now apply list_elem_of_In.
  - intros Hin. exists x. split; [now apply list_elem_of_In | apply String.eqb_refl].
Qed.

Lemma includes_false (R : list string) (x : string) :
  JsString.includes R x = false ↔ x ∉ R.
Proof.
  rewrite <- includes_true. destruct (JsString.includes R x); split; congruence.
Qed.

Lemma find_is_None {A} (f : A → bool) (l : list A) :
  (∀ x, x ∈ l → f x = false) → List.find f l = None.
Proof.
  induction l as [|a l IH]; intros H; simpl; [reflexivity|].
  rewrite (H a) by constructor. apply IH. intros x Hx. apply H. now constructor.
Qed.

Lemma find_is_Some {A} (f : A → bool) (l : list A) (x : A) :
  x ∈ l → f x = true → ∃ y, List.find f l = Some y ∧ y ∈ l ∧ f y = true.
Proof.
  intros Hin Hf. destruct (List.find f l) as [y|] eqn:E.
  - exists y. apply find_some in E as [Hy Hfy].
    repeat split; [now apply list_elem_of_In | exact Hfy].
  - apply find_none with (x := x) in E; [congruence | now apply list_elem_of_In].
Qed.

Lemma find_app_l {A} (f : A → bool) (l k : list A) (x : A) :
  List.find f l = Some x → List.find f (l ++ k) = Some x.
Proof.
  induction l as [|a l IH]; simpl; [discriminate|].
  destruct (f a); [trivial | exact IH].
Qed.

Lemma find_app_r {A} (f : A → bool) (l k : list A) :
  List.find f l = None → List.find f (l ++ k) = List.find f k.
Proof.
  induction l as [|a l IH]; simpl; [reflexivity|].
  destruct (f a); [discriminate | exact IH].
Qed.

Lemma escapeHtml_plain (s : string) :
  JsString.plain s = true → JsString.escapeHtml s = s.
Proof.
  induction s as [|a s IH]; simpl; [reflexivity|].
  intros H. apply andb_true_iff in H as [Ha Hs].
  apply negb_true_iff, orb_false_iff in Ha as [-> ->]. now rewrite IH.
Qed.

(** ** The role guard *)

Section Guard.

Variable xss : string → string.

Lemma serve_route (e : Endpoint) (ms : list Middleware) (h : Handler) :
  stack xss e = (ms, h) → serve xss e = route ms h.
Proof. unfold serve. now intros ->. Qed.

Lemma route_no_session (R : list string) (h : Handler) req st :
  user (session st) = None →
  route [checkRole R] h req st = (Redirect "/login", st).
Proof. intros H. simpl. unfold checkRole. now rewrite H. Qed.

Lemma route_wrong_role (R : list string) (h : Handler) req st u :
  user (session st) = Some u → role u ∉ R →
  route [checkRole R] h req st
  = (Render 403 "home" [("page", VString "home");
                        ("error", VString (denied R))], st).
Proof.
  intros H Hr. apply includes_false in Hr. simpl. unfold checkRole.
  now rewrite H, Hr.
Qed.

Lemma route_allowed (R : list string) (h : Handler) req st u :
  user (session st) = Some u → role u ∈ R →
  route [checkRole R] h req st = h req st.
Proof.
  intros H Hr. apply includes_true in Hr. simpl. unfold checkRole.
  now rewrite H, Hr.
Qed.

Lemma denied_names_roles (R : list string) (r : string) :
  r ∈ R → JsString.occurs_in r (denied R).
Proof.
  intros Hr. unfold denied. apply occurs_in_wrap. now apply occurs_in_join.
Qed.

(** Every route has no guard or exactly the role guard. *)
Lemma stack_guard_shape (e : Endpoint) :
  fst (stack xss e) = [] ∨ ∃ R, fst (stack xss e) = [checkRole R].
Proof. destruct e; cbn; eauto. Qed.

(** [req.session.user] is only dereferenced behind a guard: no route lets
    an exception escape. *)
Lemma serve_never_uncaught (e : Endpoint) req st what :
  fst (serve xss e req st) ≠ Uncaught what.
Proof.
  destruct e; unfold serve; cbn [stack fst snd route]; unfold checkRole;
    try discriminate;
    try (destruct (user (session st)) as [u|] eqn:Eu;
         [destruct (JsString.includes _ (role u))|]; try discriminate).
  - unfold post_login. now destruct (List.find _ _).
  - unfold post_signup. now destruct (List.find _ _).
  - unfold get_teacher_class. now rewrite Eu.
Qed.

(** C1. A route registered as [app.get(path, checkRole(R), h)] answers a
    request whose session carries no user with a redirect to [/login],
    and a request whose session user has a role outside [R] with status
    403 and the [home] view, whose error message contains every role of
    [R]; in both cases the answer and the state are the same whatever
    the handler [h] is, and the state is the one the request found. A
    request whose session user has a role in [R] gets what [h] computes.
    An endpoint of the application registered with this guard and this
    handler is served by that route. *)
Theorem checkRole_protects (R : list string) (h : Handler) (req : Request) (st : State) :
  (∀ e, stack xss e = ([checkRole R], h) → serve xss e = route [checkRole R] h)
  ∧ (user (session st) = None →
     ∀ h', route [checkRole R] h' req st = (Redirect "/login", st))
  ∧ (∀ u, user (session st) = Some u → role u ∉ R →
     (∀ h', route [checkRole R] h' req st
            = (Render 403 "home" [("page", VString "home");
                                  ("error", VString (denied R))], st))
     ∧ ∀ r, r ∈ R → JsString.occurs_in r (denied R))
  ∧ (∀ u, user (session st) = Some u → role u ∈ R →
     route [checkRole R] h req st = h req st).
Proof.
  split; [|split; [|split]].
  - intros e He. now apply serve_route.
  - intros H h'. now apply route_no_session.
  - intros u H Hr. split.
    + intros h'. now apply route_wrong_role with (u := u).
    + intros r. apply denied_names_roles.
  - intros u H Hr. now apply route_allowed with (u := u).
Qed.

End Guard.

(** ** Signup and the user collection *)

Section Collection.

Variable xss : string → string.

Lemma signed_up_roll req : roll (signed_up xss req) = roll_of xss req.
Proof.
  unfold signed_up, newUser.
  destruct (String.eqb _ "student"); [reflexivity|].
  now destruct (String.eqb _ "teacher").
Qed.

Lemma signed_up_password req : password (signed_up xss req) = password_of xss req.
Proof.
  unfold signed_up, newUser.
  destruct (String.eqb _ "student"); [reflexivity|].
  now destruct (String.eqb _ "teacher").
Qed.

Lemma signed_up_role req : role (signed_up xss req) = role_of xss req.
Proof.
  unfold signed_up, newUser.
  destruct (String.eqb _ "student"); [reflexivity|].
  now destruct (String.eqb _ "teacher").
Qed.

Lemma post_signup_duplicate req st :
  (∃ u, u ∈ users st ∧ roll u = roll_of xss req) →
  post_signup xss req st = (already_registered xss req, st).
Proof.
  intros (u & Hu & Hr). unfold post_signup.
  destruct (find_is_Some (λ u, String.eqb (roll u) (roll_of xss req)) (users st) u Hu)
    as (y & Hy & _); [now apply String.eqb_eq|].
  unfold roll_of in Hy. now rewrite Hy.
Qed.

Lemma post_signup_fresh req st :
  (∀ u, u ∈ users st → roll u ≠ roll_of xss req) →
  post_signup xss req st
  = (Redirect (landing (role_of xss req)),
     {| users := (users st ++ [signed_up xss req])%list;
        session := {| user := Some (signed_up xss req) |} |}).
Proof.
  intros H. unfold post_signup.
  rewrite find_is_None; [reflexivity|].
  intros u Hu. apply String.eqb_neq. now apply H.
Qed.

Lemma serve_post_signup req st :
  serve xss POST_signup req st = post_signup xss req st.
Proof. reflexivity. Qed.

Lemma serve_unguarded (e : Endpoint) (h : Handler) req st :
  stack xss e = ([], h) → serve xss e req st = h req st.
Proof. intros H. now rewrite (serve_route xss e [] h H). Qed.

Lemma guarded_users (R : list string) (h : Handler) req st :
  users (snd (h req st)) = users st →
  users (snd (route [checkRole R] h req st)) = users st.
Proof.
  intros H. cbn [route]. unfold checkRole.
  destruct (user (session st)) as [u|]; [|reflexivity].
  destruct (JsString.includes R (role u)); [exact H | reflexivity].
Qed.

(** A request leaves the collection as it is, unless it is a signup with
    a roll no record carries, which appends one record. *)
Lemma serve_users (e : Endpoint) req st :
  users (snd (serve xss e req st)) = users st
  ∨ (e = POST_signup
     ∧ (∀ u, u ∈ users st → roll u ≠ roll_of xss req)
     ∧ users (snd (serve xss e req st)) = (users st ++ [signed_up xss req])%list).
Proof.
  destruct e; unfold serve; cbn [stack fst snd];
    try (left; apply guarded_users); try reflexivity;
    try (left; reflexivity).
  - left. cbn [route]. unfold post_login. now destruct (List.find _ _).
  - cbn [route].
    destruct (List.find (λ u, String.eqb (roll u) (roll_of xss req)) (users st))
      as [u|] eqn:E.
    + left. apply find_some in E as [Hu Hr]. apply String.eqb_eq in Hr.
      rewrite post_signup_duplicate; [reflexivity|].
      exists u. split; [now apply list_elem_of_In | exact Hr].
    + right. assert (Hfresh : ∀ u, u ∈ users st → roll u ≠ roll_of xss req).
      { intros u Hu. apply String.eqb_neq.
        apply (find_none _ _ E). now apply list_elem_of_In. }
      split; [reflexivity|]. split; [exact Hfresh|].
      now rewrite post_signup_fresh.
  - unfold get_teacher_class. now destruct (user (session st)).
Qed.

(** The fixture records stay at the front, in their order. *)
Lemma reachable_extends (us : list User) :
  reachable xss us → ∃ extra, us = (users0 ++ extra)%list.
Proof.
  induction 1 as [|e req us s _ (extra & ->)].
  - exists []. now rewrite app_nil_r.
  - destruct (serve_users e req {| users := (users0 ++ extra)%list; session := s |})
      as [-> | (_ & _ & ->)]; cbn [users].
    + now exists extra.
    + exists (extra ++ [signed_up xss req])%list. now rewrite app_assoc.
Qed.

(** The invariant of the collection: a request never makes two records
    share a roll. *)
Lemma serve_rolls_distinct (e : Endpoint) req st :
  NoDup (roll <$> users st) →
  NoDup (roll <$> users (snd (serve xss e req st))).
Proof.
  intros Hnd.
  destruct (serve_users e req st) as [-> | (_ & Hfresh & ->)]; [exact Hnd|].
  rewrite fmap_app. apply NoDup_app. repeat split.
  - exact Hnd.
  - intros r Hr Hr'. apply list_elem_of_fmap in Hr as (u & -> & Hu).
    apply list_elem_of_singleton in Hr'. rewrite signed_up_roll in Hr'.
    now apply (Hfresh u Hu).
  - apply NoDup_singleton.
Qed.

Lemma reachable_rolls_distinct (us : list User) :
  reachable xss us → NoDup (roll <$> us).
Proof.
  induction 1 as [|e req us s _ IH].
  - apply (bool_decide_unpack _). vm_compute. exact I.
  - now apply (serve_rolls_distinct e req {| users := us; session := s |}).
Qed.

End Collection.

(** ** Login *)

Section Login.

Variable xss : string → string.

(** How the package treats text without markup: it is returned as it
    is. *)
Hypothesis xss_plain : ∀ s, JsString.plain s = true → xss s = s.

Lemma sanitized_plain_text (s dflt : string) :
  JsString.truthy s = true → JsString.plain (JsString.trim s) = true →
  sanitized xss (Some s) dflt = JsString.trim s.
Proof. intros Ht Hp. unfold sanitized. rewrite Ht. now apply xss_plain. Qed.

Lemma post_login_rejects req st :
  no_match xss req (users st) → post_login xss req st = (login_failed, st).
Proof.
  intros H. unfold post_login. rewrite find_is_None; [reflexivity|].
  intros u Hu. apply not_true_iff_false. intros Hb.
  apply andb_true_iff in Hb as [Hr Hp].
  apply String.eqb_eq in Hr, Hp. now apply (H u Hu).
Qed.

Lemma unknown_roll_no_match req us :
  (∀ u, u ∈ us → roll u ≠ sanitized xss (body req !! "roll") "") →
  no_match xss req us.
Proof. intros H u Hu [Hr _]. now apply (H u Hu). Qed.

Lemma wrong_password_no_match req us :
  (∀ u, u ∈ us → roll u = sanitized xss (body req !! "roll") "" →
        password u ≠ sanitized xss (body req !! "password") "") →
  no_match xss req us.
Proof. intros H u Hu [Hr Hp]. now apply (H u Hu Hr). Qed.

(** C2. On every collection the application can hold, [POST /login] with
    roll ["22111234"] and password ["pass123"] puts the fixture student in
    the session and redirects to [/student]. With a roll that no record
    carries, or with a roll some record carries and a password that no
    record of that roll carries, it renders the [login] view with an error
    message and leaves collection and session as they were, so a session
    without a user stays without one. *)
Theorem login_contract :
  (∀ us s req,
      reachable xss us →
      body req !! "roll" = Some "22111234" →
      body req !! "password" = Some "pass123" →
      serve xss POST_login req {| users := us; session := s |}
      = (Redirect "/student",
         {| users := us; session := {| user := Some john_doe |} |}))
  ∧ (∀ st req,
      let r := sanitized xss (body req !! "roll") "" in
      let p := sanitized xss (body req !! "password") "" in
      (∀ u, u ∈ users st → roll u ≠ r)
      ∨ ((∃ u, u ∈ users st ∧ roll u = r)
         ∧ ∀ u, u ∈ users st → roll u = r → password u ≠ p) →
      serve xss POST_login req st
      = (Render 200 "login" [("page", VString "login");
                             ("error", VString "Invalid roll or password")], st)
      ∧ (user (session st) = None →
         user (session (snd (serve xss POST_login req st))) = None)).
Proof.
  split.
  - intros us s req Hre Hroll Hpw.
    apply reachable_extends in Hre as (extra & ->).
    rewrite serve_unguarded with (h := post_login xss) by reflexivity.
    unfold post_login. rewrite Hroll, Hpw.
    rewrite !sanitized_plain_text by reflexivity.
    reflexivity.
  - intros st req r p Hcase.
    assert (Hno : no_match xss req (users st)).
    { destruct Hcase as [Hunknown | [_ Hwrong]].
      - now apply unknown_roll_no_match.
      - now apply wrong_password_no_match. }
    rewrite serve_unguarded with (h := post_login xss) by reflexivity.
    rewrite (post_login_rejects req st Hno). split; [reflexivity | trivial].
Qed.

(** C8. Two failing logins on the same collection, one with a roll some
    record carries and a password no record of that roll carries, one with
    a roll no record carries, get the same response: the [login] view with
    the one error message. Sent from the same session they also leave the
    same state and the same [res.locals.user], so nothing the client gets
    back tells them apart. *)
Theorem login_failures_alike (us : list User) (s1 s2 : Session) (req1 req2 : Request) :
  (∃ u, u ∈ us ∧ roll u = sanitized xss (body req1 !! "roll") "") →
  (∀ u, u ∈ us → roll u = sanitized xss (body req1 !! "roll") "" →
        password u ≠ sanitized xss (body req1 !! "password") "") →
  (∀ u, u ∈ us → roll u ≠ sanitized xss (body req2 !! "roll") "") →
  response (app xss POST_login req1 {| users := us; session := s1 |})
  = response (app xss POST_login req2 {| users := us; session := s2 |})
  ∧ response (app xss POST_login req1 {| users := us; session := s1 |})
    = Render 200 "login" [("page", VString "login");
                          ("error", VString "Invalid roll or password")]
  ∧ (s1 = s2 →
     app xss POST_login req1 {| users := us; session := s1 |}
     = app xss POST_login req2 {| users := us; session := s2 |}).
Proof.
  intros _ Hwrong Hunknown.
  apply wrong_password_no_match in Hwrong.
  apply unknown_roll_no_match in Hunknown.
  unfold app.
  rewrite !serve_unguarded with (h := post_login xss) by reflexivity.
  rewrite (post_login_rejects req1 {| users := us; session := s1 |} Hwrong),
    (post_login_rejects req2 {| users := us; session := s2 |} Hunknown).
  split; [reflexivity|]. split; [reflexivity|]. now intros ->.
Qed.

End Login.


(** ** Signup: the contract *)

Section SignupContract.

Variable xss : string → string.

(** C3. A [POST /signup] whose sanitized roll is the roll of a record
    already in the collection is answered with the signup form and the
    message that the roll is registered; collection and session are left
    as they were, so the collection keeps its length, and rolls that were
    pairwise distinct still are. *)
Theorem signup_duplicate_rejected (req : Request) (st : State) :
  (∃ u, u ∈ users st ∧ roll u = sanitized xss (body req !! "roll") "") →
  serve xss POST_signup req st
  = (Render 200 "signup-form"
       [("page", VString "signup");
        ("selectedRole", VString (sanitized xss (body req !! "role") "student"));
        ("error", VString "Roll number already registered.")], st)
  ∧ users (snd (serve xss POST_signup req st)) = users st
  ∧ length (users (snd (serve xss POST_signup req st))) = length (users st)
  ∧ (NoDup (roll <$> users st) →
     NoDup (roll <$> users (snd (serve xss POST_signup req st)))).
Proof.
  intros Hdup.
  rewrite serve_post_signup, (post_signup_duplicate xss req st Hdup).
  repeat split. trivial.
Qed.

(** C4. A [POST /signup] whose sanitized roll no record carries and whose
    sanitized role is ["student"] appends exactly one record, with
    semester 1, an empty [performance] array and an empty [reportCards]
    object; the record is put in the session, the answer is a redirect to
    [/student], and a [GET /student] that follows on this session passes
    the guard and gets the [student] view of that record. *)
Theorem signup_student (req : Request) (st : State) :
  (∀ u, u ∈ users st → roll u ≠ sanitized xss (body req !! "roll") "") →
  sanitized xss (body req !! "role") "student" = "student" →
  ∃ nu st',
    serve xss POST_signup req st = (Redirect "/student", st')
    ∧ users st' = (users st ++ [nu])%list
    ∧ length (users st') = S (length (users st))
    ∧ roll nu = sanitized xss (body req !! "roll") ""
    ∧ role nu = "student"
    ∧ semester nu = Some 1
    ∧ performance nu = Some []
    ∧ reportCards nu = Some ∅
    ∧ user (session st') = Some nu
    ∧ ∀ req', serve xss GET_student req' st'
              = (Render 200 "student" [("page", VString "student");
                                       ("student", VUser nu)], st').
Proof.
  intros Hfresh Hrole.
  exists (signed_up xss req),
    {| users := (users st ++ [signed_up xss req])%list;
       session := {| user := Some (signed_up xss req) |} |}.
  rewrite serve_post_signup, (post_signup_fresh xss req st Hfresh).
  fold (role_of xss req) in Hrole.
  assert (Hshape : semester (signed_up xss req) = Some 1
                   ∧ performance (signed_up xss req) = Some []
                   ∧ reportCards (signed_up xss req) = Some ∅).
  { unfold signed_up, newUser. rewrite Hrole. now cbn. }
  destruct Hshape as (Hsem & Hperf & Hcards).
  rewrite Hrole. cbn [landing users session user].
  repeat split; try assumption.
  - rewrite length_app. cbn. lia.
  - apply signed_up_roll.
  - now rewrite signed_up_role.
  - intros req'. unfold serve. cbn [stack fst snd].
    rewrite (route_allowed ["student"] get_student req' _ (signed_up xss req));
      [reflexivity | reflexivity |].
    rewrite signed_up_role, Hrole. now apply list_elem_of_singleton.
Qed.

(** C5. A [POST /signup] whose sanitized roll no record carries stores
    the role it was sent: when the [role] field is a non-empty string,
    the role of the appended record is that string trimmed and sanitized,
    whatever it is; when the field is absent or empty, the role is
    ["student"]. *)
Theorem signup_role_stored (req : Request) (st : State) :
  (∀ u, u ∈ users st → roll u ≠ sanitized xss (body req !! "roll") "") →
  ∃ nu,
    users (snd (serve xss POST_signup req st)) = (users st ++ [nu])%list
    ∧ (∀ r, body req !! "role" = Some r → r ≠ "" →
            role nu = xss (JsString.trim r))
    ∧ (body req !! "role" = None ∨ body req !! "role" = Some "" →
       role nu = "student").
Proof.
  intros Hfresh. exists (signed_up xss req).
  rewrite serve_post_signup, (post_signup_fresh xss req st Hfresh).
  rewrite signed_up_role. unfold role_of, sanitized.
  split; [reflexivity|]. split.
  - intros r -> Hr. apply String.eqb_neq in Hr.
    unfold JsString.truthy. now rewrite Hr.
  - now intros [-> | ->].
Qed.

Hypothesis xss_empty : xss "" = "".

Lemma sanitized_blank (field : option string) :
  blank field → sanitized xss field "" = "".
Proof.
  intros [-> | (s & -> & Hs)]; [reflexivity|].
  unfold sanitized. destruct (JsString.truthy s); [|reflexivity].
  now rewrite Hs.
Qed.

(** C10. [POST /signup] does not ask for a roll or a password: with both
    fields blank, and no record of roll [""] in the collection, it appends
    a record whose roll and password are the empty string, puts it in the
    session and redirects; a later [POST /login] with both fields blank,
    from any session, logs into that record. *)
Theorem signup_blank_credentials (req : Request) (st : State) :
  blank (body req !! "roll") →
  blank (body req !! "password") →
  (∀ u, u ∈ users st → roll u ≠ "") →
  ∃ nu st',
    serve xss POST_signup req st = (Redirect (landing (role nu)), st')
    ∧ users st' = (users st ++ [nu])%list
    ∧ user (session st') = Some nu
    ∧ roll nu = ""
    ∧ password nu = ""
    ∧ ∀ req' s,
        blank (body req' !! "roll") →
        blank (body req' !! "password") →
        serve xss POST_login req' {| users := users st'; session := s |}
        = (Redirect (landing (role nu)),
           {| users := users st'; session := {| user := Some nu |} |}).
Proof.
  intros Hroll Hpw Hnone.
  pose proof (sanitized_blank _ Hroll) as Er.
  pose proof (sanitized_blank _ Hpw) as Ep.
  assert (Hfresh : ∀ u, u ∈ users st → roll u ≠ roll_of xss req).
  { unfold roll_of. now rewrite Er. }
  exists (signed_up xss req),
    {| users := (users st ++ [signed_up xss req])%list;
       session := {| user := Some (signed_up xss req) |} |}.
  rewrite serve_post_signup, (post_signup_fresh xss req st Hfresh).
  assert (Hr : roll (signed_up xss req) = "")
    by (rewrite signed_up_roll; exact Er).
  assert (Hp : password (signed_up xss req) = "")
    by (rewrite signed_up_password; exact Ep).
  rewrite signed_up_role. cbn [users session user].
  repeat split; try assumption.
  intros req' s Hroll' Hpw'.
  rewrite serve_unguarded with (h := post_login xss) by reflexivity.
  unfold post_login. cbn [users].
  rewrite (sanitized_blank _ Hroll'), (sanitized_blank _ Hpw').
  rewrite find_app_r.
  - cbn [List.find]. rewrite Hr, Hp. cbn. now rewrite signed_up_role.
  - apply find_is_None. intros u Hu. apply andb_false_iff. left.
    apply String.eqb_neq. now apply Hnone.
Qed.

End SignupContract.

(** ** The librarian and teacher dashboards *)

Lemma selects_unique {A} (P : A → Prop) (l k k' : list A) :
  selects P l k → selects P l k' → k = k'.
Proof.
  intros H. revert k'. induction H as [|x l k Hx _ IH|x l k Hx _ IH];
    intros k' H'; inversion H'; subst; try contradiction.
  - reflexivity.
  - f_equal. now apply IH.
  - now apply IH.
Qed.

Lemma selects_filter {A} (P : A → Prop) (f : A → bool) (l : list A) :
  (∀ x, f x = true ↔ P x) → selects P l (List.filter f l).
Proof.
  intros Hf. induction l as [|x l IH]; cbn [List.filter]; [constructor|].
  destruct (f x) eqn:E.
  - apply selects_keep; [now apply Hf | exact IH].
  - apply selects_skip; [|exact IH]. rewrite <- Hf. congruence.
Qed.

Section Dashboards.

Variable xss : string → string.
Hypothesis xss_plain : ∀ s, JsString.plain s = true → xss s = s.

Lemma in_class_iff (u : User) :
  in_class u = true ↔ role u = "student" ∧ semester u = Some 6.
Proof.
  unfold in_class, assignedSemester.
  rewrite andb_true_iff, String.eqb_eq, bool_decide_eq_true. reflexivity.
Qed.

Lemma find_student_found (r : string) (us : list User) :
  (∃ u, u ∈ us ∧ roll u = r ∧ role u = "student") →
  ∃ s, find_student r us = Some s ∧ s ∈ us ∧ roll s = r ∧ role s = "student".
Proof.
  intros (u & Hu & Hr & Hrole).
  destruct (find_is_Some
              (λ u, String.eqb (roll u) r && String.eqb (role u) "student") us u Hu)
    as (s & Hs & Hin & Hb).
  - apply andb_true_iff. split; now apply String.eqb_eq.
  - apply andb_true_iff in Hb as [H1 H2]. apply String.eqb_eq in H1, H2.
    now exists s.
Qed.

Lemma find_student_none (r : string) (us : list User) :
  (∀ u, u ∈ us → ¬ (roll u = r ∧ role u = "student")) →
  find_student r us = None.
Proof.
  intros H. apply find_is_None. intros u Hu. apply not_true_iff_false.
  intros Hb. apply andb_true_iff in Hb as [H1 H2].
  apply String.eqb_eq in H1, H2. now apply (H u Hu).
Qed.

(** C6. [POST /librarian/search-student], sent by a librarian, renders
    the librarian view and leaves the state as it is. With roll
    ["22111234"], on every collection the application can hold, the issue
    records are those of the fixture student and their books are the two
    fixture entries of [issuedBooks]. With a sanitized roll other than
    that one which a student record carries, the issue records are those
    of such a record and the books are the empty list. With a sanitized
    roll no student record carries, the issue records are [null]. *)
Theorem librarian_search (st : State) (librarian : User) (req : Request) :
  user (session st) = Some librarian →
  role librarian = "librarian" →
  ∃ records,
    serve xss POST_librarian_search_student req st
    = (Render 200 "librarian/control"
         [("page", VString "librarian");
          ("libraryData", VLibrary libraryData);
          ("studentIssueRecords", records);
          ("searchRoll", text_or_undefined (body req !! "roll"))], st)
    ∧ (reachable xss (users st) →
       body req !! "roll" = Some "22111234" →
       records
       = VIssue {| studentName := "John Doe";
                   studentRoll := "22111234";
                   books :=
                     [ {| title := "DBMS"; issueDate := "2025-11-10";
                          returnDate := "2025-12-10" |};
                       {| title := "Operating Systems"; issueDate := "2025-11-15";
                          returnDate := "2025-12-15" |} ] |})
    ∧ (sanitized xss (body req !! "roll") "" ≠ "22111234" →
       (∃ u, u ∈ users st ∧ roll u = sanitized xss (body req !! "roll") ""
             ∧ role u = "student") →
       ∃ s, s ∈ users st
            ∧ roll s = sanitized xss (body req !! "roll") ""
            ∧ role s = "student"
            ∧ records = VIssue {| studentName := name s;
                                  studentRoll := roll s;
                                  books := [] |})
    ∧ ((∀ u, u ∈ users st →
             ¬ (roll u = sanitized xss (body req !! "roll") ""
                ∧ role u = "student")) →
       records = VNull).
Proof.
  intros Hsess Hrole.
  eexists. split.
  - unfold serve. cbn [stack fst snd].
    rewrite (route_allowed ["librarian"] _ req st librarian Hsess)
      by (rewrite Hrole; now apply list_elem_of_singleton).
    reflexivity.
  - repeat split.
    + intros Hre Hroll. apply (reachable_extends xss) in Hre as (extra & ->).
      rewrite Hroll, sanitized_plain_text by (exact xss_plain || reflexivity).
      reflexivity.
    + intros Hother Hex.
      destruct (find_student_found _ _ Hex) as (s & -> & Hin & Hr & Hst).
      exists s. repeat split; try assumption.
      rewrite <- Hr in Hother. apply String.eqb_neq in Hother.
      now rewrite Hother.
    + intros Hnone. now rewrite (find_student_none _ _ Hnone).
Qed.

(** C7. [GET /teacher/class], sent by a teacher, renders the class view
    with exactly the records of the collection whose role is ["student"]
    and whose semester is 6, in the order of the collection. The teacher's
    [classAssigned] is handed to the view as [assignedClass] and has no
    part in the selection: any other teacher gets the same list. *)
Theorem teacher_class_view (st : State) (teacher : User) (req : Request) :
  user (session st) = Some teacher →
  role teacher = "teacher" →
  ∃ classStudents,
    serve xss GET_teacher_class req st
    = (Render 200 "teacher/class"
         [("page", VString "teacher");
          ("teacher", VUser teacher);
          ("classStudents", VUsers classStudents);
          ("assignedClass", text_or_undefined (classAssigned teacher))], st)
    ∧ selects (λ u, role u = "student" ∧ semester u = Some 6)
              (users st) classStudents
    ∧ ∀ other req',
        role other = "teacher" →
        ∃ data,
          fst (serve xss GET_teacher_class req'
                 {| users := users st; session := {| user := Some other |} |})
          = Render 200 "teacher/class" data
          ∧ property "classStudents" data = Some (VUsers classStudents)
          ∧ property "assignedClass" data
            = Some (text_or_undefined (classAssigned other)).
Proof.
  intros Hsess Hrole.
  exists (List.filter in_class (users st)). split; [|split].
  - unfold serve. cbn [stack fst snd].
    rewrite (route_allowed ["teacher"] _ req st teacher Hsess)
      by (rewrite Hrole; now apply list_elem_of_singleton).
    unfold get_teacher_class. now rewrite Hsess.
  - apply selects_filter, in_class_iff.
  - intros other req' Hother. eexists.
    unfold serve. cbn [stack fst snd].
    rewrite (route_allowed ["teacher"] _ req' _ other)
      by (reflexivity || (rewrite Hother; now apply list_elem_of_singleton)).
    unfold get_teacher_class. cbn [session user users fst].
    split; [reflexivity|]. split; reflexivity.
Qed.

End Dashboards.

(** ** The chat proxy *)

Section Chat.

Variable xss : string → string.
Variable create : OpenAI.Params → Outcome OpenAI.Completion.

Lemma chat_message_forwarded (fields : gmap string Field) :
  fields !! "message" ≠ Some FTruthy →
  chat_message xss fields = Returned (forwarded xss fields).
Proof.
  unfold chat_message, forwarded.
  destruct (fields !! "message") as [[s| |]|]; congruence.
Qed.

(** C9, amended. [POST /chat] with a [message] field that is text, falsy
    or absent sends the sanitized message to the completion service. When
    the call is fulfilled with a completion whose first choice has a
    message, the answer has status 200 and a JSON body whose [reply] is the
    content of that message: the text, [null] for a [null] content, and no
    [reply] at all for a message without content. When the call is
    rejected, or the completion has no first choice or no message in it,
    the answer has status 500 and the fixed apology as [reply]. For such a
    request the handler gives one of these answers and never throws. *)
Theorem chat_proxy_outcomes (fields : gmap string Field) :
  fields !! "message" ≠ Some FTruthy →
  let params := chat_params (forwarded xss fields) in
  (∀ completion choice rest m,
      create params = Returned completion →
      OpenAI.choices completion = choice :: rest →
      OpenAI.message choice = Some m →
      post_chat xss create fields
      = Returned (Json 200 (stringified [("reply", reply_of m)]))
      ∧ (∀ text, OpenAI.reply_content m = OpenAI.TextContent text →
                 post_chat xss create fields
                 = Returned (Json 200 [("reply", VString text)]))
      ∧ (OpenAI.reply_content m = OpenAI.NullContent →
         post_chat xss create fields = Returned (Json 200 [("reply", VNull)]))
      ∧ (OpenAI.reply_content m = OpenAI.NoContent →
         post_chat xss create fields = Returned (Json 200 [])))
  ∧ (∀ err,
      create params = Thrown err →
      post_chat xss create fields
      = Returned (Json 500 [("reply", VString "Sorry — something went wrong.")]))
  ∧ (∀ completion,
      create params = Returned completion →
      OpenAI.choices completion = []
      ∨ (∃ choice rest, OpenAI.choices completion = choice :: rest
                        ∧ OpenAI.message choice = None) →
      post_chat xss create fields
      = Returned (Json 500 [("reply", VString "Sorry — something went wrong.")]))
  ∧ (post_chat xss create fields
     = Returned (Json 500 [("reply", VString "Sorry — something went wrong.")])
     ∨ ∃ m, post_chat xss create fields
            = Returned (Json 200 (stringified [("reply", reply_of m)]))).
Proof.
  intros Hfield params.
  assert (Hrun : post_chat xss create fields
                 = try_catch
                     (completion ← create params;
                      reply ← first_content completion;
                      mret (Json 200 (stringified [("reply", reply)])))
                     (λ _, mret (Json 500 [("reply", VString apology)]))).
  { unfold post_chat. now rewrite (chat_message_forwarded fields Hfield). }
  rewrite Hrun. clear Hrun.
  split; [|split; [|split]].
  - intros completion choice rest m -> Hc Hm.
    assert (Hfirst : first_content completion = Returned (reply_of m))
      by (unfold first_content; now rewrite Hc, Hm).
    cbn [mbind Outcome_bind]. rewrite Hfirst. cbn [mret Outcome_ret try_catch].
    split; [reflexivity|]. unfold reply_of.
    split; [|split].
    + now intros text ->.
    + now intros ->.
    + now intros ->.
  - now intros err ->.
  - intros completion -> [Hc | (choice & rest & Hc & Hm)];
      cbn; unfold first_content; rewrite Hc; [reflexivity|]. now rewrite Hm.
  - destruct (create params) as [completion|err]; cbn; [|now left].
    unfold first_content.
    destruct (OpenAI.choices completion) as [|choice rest]; [now left|].
    destruct (OpenAI.message choice) as [m|]; [|now left].
    right. exists m. reflexivity.
Qed.

End Chat.

(** ** The contracts at work

    The theorems above, applied to the sample requests, with the angle
    bracket escaper in the place of the sanitizer. *)

Ltac each_user H :=
  repeat (apply elem_of_cons in H as [-> | H]); [.. | now apply elem_of_nil in H].

Lemma checkRole_protects_witness :
  serve JsString.escapeHtml GET_student (page "/student") (start anonymous)
  = (Redirect "/login", start anonymous)
  ∧ serve JsString.escapeHtml GET_student (page "/student") (start (signed_in admin001))
    = (Render 403 "home"
         [("page", VString "home");
          ("error", VString "Access Denied: You do not have **student** permissions for this page.")],
       start (signed_in admin001))
  ∧ JsString.occurs_in "student" (denied ["student"])
  ∧ serve JsString.escapeHtml GET_student (page "/student") (start (signed_in john_doe))
    = (Render 200 "student" [("page", VString "student"); ("student", VUser john_doe)],
       start (signed_in john_doe)).
Proof.
  pose proof (checkRole_protects JsString.escapeHtml ["student"] get_student
                (page "/student")) as H.
  destruct (H (start anonymous)) as (Hroute & Hnone & _).
  destruct (H (start (signed_in admin001))) as (_ & _ & Hwrong & _).
  destruct (H (start (signed_in john_doe))) as (_ & _ & _ & Hok).
  rewrite (Hroute GET_student eq_refl).
  assert (Hadmin : role admin001 ∉ ["student"]).
  { intros Hin. apply list_elem_of_singleton in Hin. discriminate Hin. }
  destruct (Hwrong admin001 eq_refl Hadmin) as [H403 Hnames].
  split; [exact (Hnone eq_refl get_student)|].
  split; [exact (H403 get_student)|].
  split; [apply Hnames; now apply list_elem_of_singleton|].
  apply (Hok john_doe eq_refl). now apply list_elem_of_singleton.
Defined.

Lemma login_contract_witness :
  serve JsString.escapeHtml POST_login login_john (start anonymous)
  = (Redirect "/student", start (signed_in john_doe))
  ∧ serve JsString.escapeHtml POST_login login_unknown (start anonymous)
    = (login_failed, start anonymous)
  ∧ serve JsString.escapeHtml POST_login login_wrong_password (start anonymous)
    = (login_failed, start anonymous).
Proof.
  destruct (login_contract JsString.escapeHtml escapeHtml_plain) as [Hok Hbad].
  split; [|split].
  - apply (Hok users0 anonymous login_john); [constructor | reflexivity | reflexivity].
  - apply (Hbad (start anonymous) login_unknown). left.
    intros u Hu. cbn in Hu. each_user Hu; discriminate.
  - apply (Hbad (start anonymous) login_wrong_password). right. split.
    + exists john_doe. split; [constructor | reflexivity].
    + intros u Hu. cbn in Hu. each_user Hu; discriminate.
Defined.

Lemma login_failures_alike_witness :
  response (app JsString.escapeHtml POST_login login_wrong_password (start anonymous))
  = response (app JsString.escapeHtml POST_login login_unknown (start (signed_in lib001)))
  ∧ app JsString.escapeHtml POST_login login_wrong_password (start anonymous)
    = app JsString.escapeHtml POST_login login_unknown (start anonymous).
Proof.
  assert (Hknown : ∃ u, u ∈ users0
            ∧ roll u = sanitized JsString.escapeHtml (body login_wrong_password !! "roll") "")
    by (exists john_doe; split; [constructor | reflexivity]).
  assert (Hwrong : ∀ u, u ∈ users0 →
            roll u = sanitized JsString.escapeHtml (body login_wrong_password !! "roll") "" →
            password u
            ≠ sanitized JsString.escapeHtml (body login_wrong_password !! "password") "")
    by (intros u Hu; each_user Hu; discriminate).
  assert (Hunknown : ∀ u, u ∈ users0 →
            roll u ≠ sanitized JsString.escapeHtml (body login_unknown !! "roll") "")
    by (intros u Hu; each_user Hu; discriminate).
  split.
  - exact (proj1 (login_failures_alike JsString.escapeHtml users0 anonymous
                    (signed_in lib001) login_wrong_password login_unknown
                    Hknown Hwrong Hunknown)).
  - exact (proj2 (proj2 (login_failures_alike JsString.escapeHtml users0 anonymous
                           anonymous login_wrong_password login_unknown
                           Hknown Hwrong Hunknown)) eq_refl).
Defined.

Lemma signup_duplicate_rejected_witness :
  serve JsString.escapeHtml POST_signup signup_john_again (start anonymous)
  = (Render 200 "signup-form"
       [("page", VString "signup"); ("selectedRole", VString "student");
        ("error", VString "Roll number already registered.")],
     start anonymous)
  ∧ length (users (snd (serve JsString.escapeHtml POST_signup signup_john_again
                          (start anonymous)))) = 4%nat.
Proof.
  destruct (signup_duplicate_rejected JsString.escapeHtml signup_john_again
              (start anonymous)) as (Hanswer & _ & Hlen & _).
  - exists john_doe. split; [constructor | reflexivity].
  - split; [exact Hanswer | exact Hlen].
Defined.

Lemma signup_student_witness :
  ∃ st',
    serve JsString.escapeHtml POST_signup signup_jane (start anonymous)
    = (Redirect "/student", st')
    ∧ users st' = [john_doe; admin001; lib001; teacher101; jane]
    ∧ semester jane = Some 1
    ∧ performance jane = Some []
    ∧ reportCards jane = Some ∅
    ∧ serve JsString.escapeHtml GET_student (page "/student") st'
      = (Render 200 "student" [("page", VString "student"); ("student", VUser jane)],
         st').
Proof.
  destruct (signup_student JsString.escapeHtml signup_jane (start anonymous))
    as (nu & st' & Hanswer & Husers & _ & _ & _ & Hsem & Hperf & Hcards & Hsess & Hget).
  - intros u Hu. cbn in Hu. each_user Hu; discriminate.
  - reflexivity.
  - assert (Hnu : nu = jane).
    { rewrite serve_post_signup, post_signup_fresh in Hanswer.
      - injection Hanswer as <-. cbn in Hsess. now injection Hsess.
      - intros u Hu. cbn in Hu. each_user Hu; discriminate. }
    subst nu. exists st'. repeat split; try assumption. apply Hget.
Defined.

Lemma signup_role_stored_witness :
  ∃ nu,
    users (snd (serve JsString.escapeHtml POST_signup signup_superuser (start anonymous)))
    = [john_doe; admin001; lib001; teacher101; nu]
    ∧ role nu = "superuser".
Proof.
  destruct (signup_role_stored JsString.escapeHtml signup_superuser (start anonymous))
    as (nu & Husers & Hgiven & _).
  - intros u Hu. cbn in Hu. each_user Hu; discriminate.
  - exists nu. split; [exact Husers|].
    now rewrite (Hgiven " superuser " eq_refl).
Defined.

Lemma signup_blank_credentials_witness :
  ∃ nu st',
    serve JsString.escapeHtml POST_signup signup_blank (start anonymous)
    = (Redirect "/student", st')
    ∧ roll nu = "" ∧ password nu = ""
    ∧ serve JsString.escapeHtml POST_login login_blank
        {| users := users st'; session := anonymous |}
      = (Redirect "/student", {| users := users st'; session := signed_in nu |}).
Proof.
  destruct (signup_blank_credentials JsString.escapeHtml eq_refl signup_blank
              (start anonymous))
    as (nu & st' & Hanswer & Husers & Hsess & Hroll & Hpw & Hlogin).
  - right. exists "   ". split; reflexivity.
  - now left.
  - intros u Hu. cbn in Hu. each_user Hu; discriminate.
  - assert (Hrole : role nu = "student").
    { rewrite serve_post_signup, post_signup_fresh in Hanswer.
      - injection Hanswer as _ <-. cbn in Hsess. now injection Hsess as <-.
      - intros u Hu. cbn in Hu. each_user Hu; discriminate. }
    exists nu, st'. rewrite Hrole in Hanswer, Hlogin.
    repeat split; try assumption.
    apply (Hlogin login_blank anonymous); now left.
Defined.

Lemma librarian_search_witness :
  property "studentIssueRecords"
    match fst (serve JsString.escapeHtml POST_librarian_search_student
                 (search "22111234") (start (signed_in lib001))) with
    | Render _ _ data => data
    | _ => []
    end
  = Some (VIssue {| studentName := "John Doe"; studentRoll := "22111234";
                    books := issuedBooks libraryData |})
  ∧ length (issuedBooks libraryData) = 2%nat.
Proof.
  destruct (librarian_search JsString.escapeHtml escapeHtml_plain
              (start (signed_in lib001)) lib001 (search "22111234") eq_refl eq_refl)
    as (records & -> & Hjohn & _).
  split; [|reflexivity].
  cbn [fst property String.eqb Ascii.eqb Bool.eqb].
  now rewrite (Hjohn (reachable_start _) eq_refl).
Defined.

Lemma teacher_class_view_witness :
  serve JsString.escapeHtml GET_teacher_class (page "/teacher/class")
    (start (signed_in teacher101))
  = (Render 200 "teacher/class"
       [("page", VString "teacher"); ("teacher", VUser teacher101);
        ("classStudents", VUsers [john_doe]);
        ("assignedClass", VString "B.Tech 6th Sem")],
     start (signed_in teacher101)).
Proof.
  destruct (teacher_class_view JsString.escapeHtml (start (signed_in teacher101))
              teacher101 (page "/teacher/class") eq_refl eq_refl)
    as (classStudents & -> & Hsel & _).
  assert (Hjohn : selects (λ u, role u = "student" ∧ semester u = Some 6)
                    users0 [john_doe]).
  { apply selects_keep; [now split|].
    repeat (apply selects_skip; [intros [Hr _]; discriminate Hr|]).
    constructor. }
  now rewrite (selects_unique _ _ _ _ Hsel Hjohn).
Defined.

Lemma chat_proxy_outcomes_witness :
  post_chat JsString.escapeHtml (answering "Learn Rocq.")
    {[ "message" := FText " What next? " ]}
  = Returned (Json 200 [("reply", VString "Learn Rocq.")])
  ∧ post_chat JsString.escapeHtml unreachable {[ "message" := FText " What next? " ]}
    = Returned (Json 500 [("reply", VString apology)]).
Proof.
  assert (Htext : ({[ "message" := FText " What next? " ]} : gmap string Field)
                    !! "message" ≠ Some FTruthy)
    by (vm_compute; discriminate).
  split.
  - destruct (chat_proxy_outcomes JsString.escapeHtml (answering "Learn Rocq.")
                {[ "message" := FText " What next? " ]} Htext) as (Hok & _).
    destruct (Hok _ _ [] {| OpenAI.reply_content := OpenAI.TextContent "Learn Rocq." |}
                eq_refl eq_refl eq_refl) as (_ & Htext' & _).
    exact (Htext' "Learn Rocq." eq_refl).
  - destruct (chat_proxy_outcomes JsString.escapeHtml unreachable
                {[ "message" := FText " What next? " ]} Htext) as (_ & Hdown & _).
    exact (Hdown _ eq_refl).
Defined.

(** C9 as it was stated fails: a JSON body whose [message] is a number
    other than zero, an array or an object makes the handler throw before it enters the
    [try], whatever the completion service would have answered; it gives
    neither of the two answers. *)
Lemma chat_throws_on_non_text :
  post_chat JsString.escapeHtml (answering "Learn Rocq.") {[ "message" := FTruthy ]}
  = Thrown "TypeError: req.body.message.trim is not a function"
  ∧ ¬ (∃ r, post_chat JsString.escapeHtml (answering "Learn Rocq.")
              {[ "message" := FTruthy ]} = Returned r).
Proof.
  split; [reflexivity|]. intros [r Hr]. vm_compute in Hr. discriminate Hr.
Qed.

(** ** The handlers on concrete requests *)

Example trim_strips_both_ends :
  JsString.trim "  22111234 " = "22111234"
  ∧ JsString.trim "pass 123" = "pass 123"
  ∧ JsString.trim (String (ascii_of_nat 9)
                     (String (ascii_of_nat 194) (String (ascii_of_nat 160) "")))
    = ""
  ∧ JsString.trim (String (ascii_of_nat 239) (String (ascii_of_nat 187)
                     (String (ascii_of_nat 191)
                        ("a" +:+ String (ascii_of_nat 226) (String (ascii_of_nat 128)
                                   (String (ascii_of_nat 168) "")))))) = "a"
  ∧ JsString.trim (String (ascii_of_nat 160) (String (ascii_of_nat 194) "b"))
    = String (ascii_of_nat 160) (String (ascii_of_nat 194) "b").
Proof. repeat split; reflexivity. Qed.

Example denied_library :
  denied ["student"; "librarian"; "admin"]
  = "Access Denied: You do not have **student or librarian or admin** permissions for this page.".
Proof. reflexivity. Qed.

Example login_lands_by_role :
  fst (serve JsString.escapeHtml POST_login
         (form [("roll", "teacher101"); ("password", "teachpass")] "/login")
         (start anonymous))
  = Redirect "/teacher/class".
Proof. reflexivity. Qed.

Example signup_escapes_markup :
  name (signed_up JsString.escapeHtml
          (form [("name", "<b>Eve</b>"); ("roll", "e1")] "/signup"))
  = "&lt;b&gt;Eve&lt;/b&gt;".
Proof. reflexivity. Qed.

Example logout_clears_session :
  serve JsString.escapeHtml POST_logout (page "/logout") (start (signed_in john_doe))
  = (Redirect "/", start anonymous).
Proof. reflexivity. Qed.

Example unmatched_is_404 :
  fst (serve JsString.escapeHtml Unmatched (page "/nowhere") (start anonymous))
  = Render 404 "home"
      [("page", VString "error");
       ("error", VString "404: The page you requested (/nowhere) was not found.")].
Proof. reflexivity. Qed.

Example apology_bytes : String.length apology = 31%nat.
Proof. reflexivity. Qed.

Example chat_without_content :
  post_chat JsString.escapeHtml
    (λ _, Returned {| OpenAI.choices :=
                        [ {| OpenAI.message :=
                               Some {| OpenAI.reply_content := OpenAI.NoContent |} |} ] |})
    ∅
  = Returned (Json 200 []).
Proof. reflexivity. Qed.

(** ** The collection and the session across requests *)

Section Across.

Variable xss : string → string.

Lemma guarded_state (R : list string) (h : Handler) req st :
  snd (h req st) = st → snd (route [checkRole R] h req st) = st.
Proof.
  intros H. cbn [route]. unfold checkRole.
  destruct (user (session st)) as [u|]; [|reflexivity].
  destruct (JsString.includes R (role u)); [exact H | reflexivity].
Qed.

(** X1. In every collection the application can hold, a roll identifies
    at most one record: the rolls are pairwise distinct, so two positions
    that hold records of the same roll are the same position. *)
Theorem roll_identifies_record (us : list User) :
  reachable xss us →
  NoDup (roll <$> us)
  ∧ ∀ i j u v, us !! i = Some u → us !! j = Some v → roll u = roll v → i = j.
Proof.
  intros Hre. pose proof (reachable_rolls_distinct xss us Hre) as Hnd.
  split; [exact Hnd|].
  intros i j u v Hi Hj Heq.
  apply (NoDup_lookup (roll <$> us) i j (roll u)); [exact Hnd | |].
  - now rewrite list_lookup_fmap, Hi.
  - now rewrite list_lookup_fmap, Hj, Heq.
Qed.

(** X2. No request removes, moves or alters a stored record: every
    position of [users] holds after the request what it held before. The
    array keeps its length, or grows by one; it grows only on a
    [POST /signup] whose sanitized roll no record carried. *)
Theorem collection_only_grows (e : Endpoint) (req : Request) (st : State) :
  (∀ i u, users st !! i = Some u →
          users (snd (serve xss e req st)) !! i = Some u)
  ∧ (length (users (snd (serve xss e req st))) = length (users st)
     ∨ (length (users (snd (serve xss e req st))) = S (length (users st))
        ∧ e = POST_signup
        ∧ ∀ u, u ∈ users st → roll u ≠ sanitized xss (body req !! "roll") "")).
Proof.
  destruct (serve_users xss e req st) as [-> | (He & Hfresh & ->)].
  - split; [trivial | now left].
  - split.
    + intros i u Hi. now apply lookup_app_l_Some.
    + right. rewrite length_app. cbn. split; [lia|]. now split.
Qed.

Lemma serve_state_unchanged (e : Endpoint) (req : Request) (st : State) :
  e ≠ POST_login → e ≠ POST_logout → e ≠ POST_signup →
  snd (serve xss e req st) = st.
Proof.
  intros H1 H2 H3.
  destruct e; try congruence; unfold serve; cbn [stack fst snd];
    try (apply guarded_state); try reflexivity.
  unfold get_teacher_class. now destruct (user (session st)).
Qed.

(** X3. Among the routes that answer without calling out, that is all
    but [POST /chat], only login, logout and signup write. Each of the
    others, which are [GET /], [GET /login], [GET /signup], the eight
    guarded routes and the final 404 handler, dispatched by [serve], and
    [GET /signup/:role], leaves the [users] array and the session exactly
    as the request found them, whether its guard lets the request through
    or not; so serving the same request again gives the same answer. *)
Theorem other_routes_read_only (e : Endpoint) (req : Request) (st : State) :
  (e ≠ POST_login → e ≠ POST_logout → e ≠ POST_signup →
   snd (serve xss e req st) = st
   ∧ serve xss e req (snd (serve xss e req st)) = serve xss e req st)
  ∧ ∀ toLowerCase roleParam,
      snd (get_signup_role toLowerCase roleParam req st) = st
      ∧ get_signup_role toLowerCase roleParam req
          (snd (get_signup_role toLowerCase roleParam req st))
        = get_signup_role toLowerCase roleParam req st.
Proof.
  split.
  - intros H1 H2 H3. rewrite (serve_state_unchanged e req st H1 H2 H3).
    now split.
  - intros toLowerCase roleParam.
    assert (Hst : snd (get_signup_role toLowerCase roleParam req st) = st).
    { unfold get_signup_role.
      now destruct (negb (JsString.includes validRoles (toLowerCase roleParam))). }
    rewrite Hst. now split.
Qed.

(** X4. [POST /logout] redirects to [/], empties the session and keeps
    the collection; after it every guarded route answers this session with
    the redirect to [/login], whoever was signed in. *)
Theorem logout_closes_session (req : Request) (st : State) :
  fst (serve xss POST_logout req st) = Redirect "/"
  ∧ users (snd (serve xss POST_logout req st)) = users st
  ∧ user (session (snd (serve xss POST_logout req st))) = None
  ∧ ∀ e R h req',
      stack xss e = ([checkRole R], h) →
      serve xss e req' (snd (serve xss POST_logout req st))
      = (Redirect "/login", snd (serve xss POST_logout req st)).
Proof.
  repeat split.
  intros e R h req' He. rewrite (serve_route xss e _ _ He).
  now apply route_no_session.
Qed.

(** X5. Signup and login round trip: after a [POST /signup] whose
    sanitized roll no record carried, a [POST /login] that submits the same
    [roll] and [password] fields signs in as the record the signup appended
    and is sent where the signup was sent, from any session and however
    many records have been appended since. *)
Theorem signup_then_login (req : Request) (st : State) :
  (∀ u, u ∈ users st → roll u ≠ sanitized xss (body req !! "roll") "") →
  ∃ nu,
    users (snd (serve xss POST_signup req st)) = (users st ++ [nu])%list
    ∧ ∀ later req' s,
        body req' !! "roll" = body req !! "roll" →
        body req' !! "password" = body req !! "password" →
        serve xss POST_login req'
          {| users := (users st ++ [nu] ++ later)%list; session := s |}
        = (fst (serve xss POST_signup req st),
           {| users := (users st ++ [nu] ++ later)%list;
              session := {| user := Some nu |} |}).
Proof.
  intros Hfresh. exists (signed_up xss req).
  rewrite serve_post_signup, (post_signup_fresh xss req st Hfresh).
  split; [reflexivity|].
  intros later req' s Hr Hp.
  rewrite serve_unguarded with (h := post_login xss) by reflexivity.
  unfold post_login. cbn [users fst]. rewrite Hr, Hp.
  rewrite find_app_r.
  - change ([signed_up xss req] ++ later)%list with (signed_up xss req :: later).
    cbn [List.find].
    rewrite signed_up_roll, signed_up_password. unfold roll_of, password_of.
    rewrite !String.eqb_refl. cbn [andb]. now rewrite signed_up_role.
  - apply find_is_None. intros u Hu. apply andb_false_iff. left.
    apply String.eqb_neq. now apply Hfresh.
Qed.

(** X6. [POST /login] decides by the credentials alone. Either it signs
    in: it redirects, keeps the collection and puts in the session a record
    of the collection whose roll and password are the sanitized fields; or
    no record has both and it answers with the login view, leaving the
    state as it was. When the rolls of the collection are pairwise distinct
    the record signed in is the only one of its roll. *)
Theorem login_decides (req : Request) (st : State) :
  let r := sanitized xss (body req !! "roll") "" in
  let p := sanitized xss (body req !! "password") "" in
  ((∃ found,
       serve xss POST_login req st
       = (Redirect (landing (role found)),
          {| users := users st; session := {| user := Some found |} |})
       ∧ found ∈ users st ∧ roll found = r ∧ password found = p
       ∧ (NoDup (roll <$> users st) →
          ∀ v, v ∈ users st → roll v = r → v = found))
   ∨ (serve xss POST_login req st = (login_failed, st)
      ∧ ∀ u, u ∈ users st → ¬ (roll u = r ∧ password u = p))).
Proof.
  intros r p.
  rewrite serve_unguarded with (h := post_login xss) by reflexivity.
  unfold post_login. fold r p.
  destruct (List.find _ (users st)) as [found|] eqn:E.
  - left. exists found. apply find_some in E as [Hin Hb].
    apply andb_true_iff in Hb as [Hr Hp]. apply String.eqb_eq in Hr, Hp.
    apply list_elem_of_In in Hin.
    repeat split; try assumption.
    intros Hnd v Hv Hvr.
    apply list_elem_of_lookup in Hin as [i Hi].
    apply list_elem_of_lookup in Hv as [j Hj].
    assert (j = i) as ->; [|congruence].
    apply (NoDup_lookup (roll <$> users st) j i r); [exact Hnd | |].
    + now rewrite list_lookup_fmap, Hj, <- Hvr.
    + now rewrite list_lookup_fmap, Hi, <- Hr.
  - right. split; [reflexivity|].
    intros u Hu [Hr Hp].
    apply list_elem_of_In in Hu. pose proof (find_none _ _ E u Hu) as Hb.
    cbn beta in Hb. rewrite Hr, Hp, !String.eqb_refl in Hb. discriminate Hb.
Qed.

End Across.

(** ** Roles and where they lead *)

Section Roles.

Variable xss : string → string.

Lemma includes_outsider (R : list string) (r : string) :
  R ⊆ known_roles → r ∉ known_roles → JsString.includes R r = false.
Proof. intros HR Hr. apply includes_false. intros Hin. apply Hr, HR, Hin. Qed.

(** X7. The page a login or signup redirects to admits the user: for a
    user whose role is one of student, admin, librarian and teacher, the
    path [landing] computes is the path of a [GET] route, and the guard of
    that route lets the user through to its handler. *)
Theorem landing_admits (u : User) :
  role u ∈ known_roles →
  ∃ e R,
    registered e = Some (GET, landing (role u))
    ∧ fst (stack xss e) = [checkRole R]
    ∧ role u ∈ R
    ∧ ∀ req us,
        serve xss e req {| users := us; session := {| user := Some u |} |}
        = snd (stack xss e) req {| users := us; session := {| user := Some u |} |}.
Proof.
  intros Hin. unfold known_roles in Hin.
  repeat (apply elem_of_cons in Hin as [Hr | Hin]); [.. | now apply elem_of_nil in Hin].
  - exists GET_student, ["student"]. rewrite Hr. repeat split.
    + now apply list_elem_of_singleton.
    + intros req us. unfold serve. cbn [stack fst snd].
      apply route_allowed with (u := u); [reflexivity|].
      rewrite Hr. now apply list_elem_of_singleton.
  - exists GET_admin_dashboard, ["admin"]. rewrite Hr. repeat split.
    + now apply list_elem_of_singleton.
    + intros req us. unfold serve. cbn [stack fst snd].
      apply route_allowed with (u := u); [reflexivity|].
      rewrite Hr. now apply list_elem_of_singleton.
  - exists GET_librarian_control, ["librarian"]. rewrite Hr. repeat split.
    + now apply list_elem_of_singleton.
    + intros req us. unfold serve. cbn [stack fst snd].
      apply route_allowed with (u := u); [reflexivity|].
      rewrite Hr. now apply list_elem_of_singleton.
  - exists GET_teacher_class, ["teacher"]. rewrite Hr. repeat split.
    + now apply list_elem_of_singleton.
    + intros req us. unfold serve. cbn [stack fst snd].
      apply route_allowed with (u := u); [reflexivity|].
      rewrite Hr. now apply list_elem_of_singleton.
Qed.

Lemma outsider_denied (u : User) (e : Endpoint) req st :
  user (session st) = Some u →
  role u ∉ known_roles →
  fst (stack xss e) ≠ [] →
  ∃ R, fst (stack xss e) = [checkRole R]
       ∧ serve xss e req st
         = (Render 403 "home" [("page", VString "home");
                               ("error", VString (denied R))], st).
Proof.
  intros Hu Hr He.
  destruct e; cbn [stack fst] in He; try congruence;
    unfold serve; cbn [stack fst snd];
    (eexists; split; [reflexivity|]);
    apply route_wrong_role with (u := u); try exact Hu;
    intros Hmem; apply Hr; unfold known_roles;
    repeat (apply elem_of_cons in Hmem as [-> | Hmem]);
    try (now apply elem_of_nil in Hmem);
    repeat (first [apply list_elem_of_here | apply list_elem_of_further]).
Qed.

(** X8. [POST /signup] stores a role no guard admits as readily as any
    other: with a sanitized roll no record carries and a sanitized role
    outside student, admin, librarian and teacher, the record is appended
    and signed in and the answer is the redirect to [/student]; from then on
    every guarded route, [/student] included, answers this session with
    status 403. *)
Theorem unknown_role_locked_out (req : Request) (st : State) :
  (∀ u, u ∈ users st → roll u ≠ sanitized xss (body req !! "roll") "") →
  sanitized xss (body req !! "role") "student" ∉ known_roles →
  ∃ nu st',
    serve xss POST_signup req st = (Redirect "/student", st')
    ∧ users st' = (users st ++ [nu])%list
    ∧ user (session st') = Some nu
    ∧ role nu = sanitized xss (body req !! "role") "student"
    ∧ ∀ e req',
        fst (stack xss e) ≠ [] →
        ∃ R, fst (stack xss e) = [checkRole R]
             ∧ serve xss e req' st'
               = (Render 403 "home" [("page", VString "home");
                                     ("error", VString (denied R))], st').
Proof.
  intros Hfresh Hrole.
  exists (signed_up xss req),
    {| users := (users st ++ [signed_up xss req])%list;
       session := {| user := Some (signed_up xss req) |} |}.
  rewrite serve_post_signup, (post_signup_fresh xss req st Hfresh).
  fold (role_of xss req) in Hrole |- *.
  assert (Hland : landing (role_of xss req) = "/student").
  { unfold landing.
    destruct (String.eqb_spec (role_of xss req) "admin") as [E|_];
      [exfalso; apply Hrole; rewrite E; apply list_elem_of_further, list_elem_of_here|].
    destruct (String.eqb_spec (role_of xss req) "librarian") as [E|_];
      [exfalso; apply Hrole; rewrite E;
       do 2 apply list_elem_of_further; apply list_elem_of_here|].
    destruct (String.eqb_spec (role_of xss req) "teacher") as [E|_];
      [exfalso; apply Hrole; rewrite E;
       do 3 apply list_elem_of_further; apply list_elem_of_here|].
    reflexivity. }
  rewrite Hland. repeat split; [apply signed_up_role|].
  intros e req' He.
  apply outsider_denied with (u := signed_up xss req); [reflexivity | | exact He].
  now rewrite signed_up_role.
Qed.

(** X9. Anyone can sign up as an administrator: [POST /signup] with a
    sanitized roll no record carries and the sanitized role ["admin"]
    appends the record, signs it in and redirects to [/admin/dashboard];
    the session then passes the guard of the admin dashboard and of the
    admin search. *)
Theorem signup_as_admin (req : Request) (st : State) :
  (∀ u, u ∈ users st → roll u ≠ sanitized xss (body req !! "roll") "") →
  sanitized xss (body req !! "role") "student" = "admin" →
  ∃ nu st',
    serve xss POST_signup req st = (Redirect "/admin/dashboard", st')
    ∧ users st' = (users st ++ [nu])%list
    ∧ user (session st') = Some nu
    ∧ role nu = "admin"
    ∧ (∀ req', serve xss GET_admin_dashboard req' st'
               = (Render 200 "admin/dashboard"
                    [("page", VString "admin"); ("foundStudent", VNull);
                     ("searchQuery", VNull)], st'))
    ∧ ∀ req', serve xss POST_admin_search req' st' = post_admin_search xss req' st'.
Proof.
  intros Hfresh Hrole.
  exists (signed_up xss req),
    {| users := (users st ++ [signed_up xss req])%list;
       session := {| user := Some (signed_up xss req) |} |}.
  rewrite serve_post_signup, (post_signup_fresh xss req st Hfresh).
  fold (role_of xss req) in Hrole. rewrite Hrole.
  assert (Hadmin : role (signed_up xss req) ∈ ["admin"])
    by (rewrite signed_up_role, Hrole; now apply list_elem_of_singleton).
  repeat split.
  - now rewrite signed_up_role.
  - intros req'. unfold serve. cbn [stack fst snd].
    apply (route_allowed ["admin"] get_admin_dashboard req' _ (signed_up xss req));
      [reflexivity | exact Hadmin].
  - intros req'. unfold serve. cbn [stack fst snd].
    apply (route_allowed ["admin"] (post_admin_search xss) req' _ (signed_up xss req));
      [reflexivity | exact Hadmin].
Qed.

(** X15. The fields a signup adds depend on the role alone. With the
    sanitized role ["teacher"] the record gets the default class label and
    none of the student fields, the answer is the redirect to
    [/teacher/class], and that page then shows the record as [teacher] and
    the default label as [assignedClass]. With a sanitized role other than
    ["student"] and ["teacher"] the record gets none of the role fields. *)
Theorem signup_role_fields (req : Request) (st : State) :
  (∀ u, u ∈ users st → roll u ≠ sanitized xss (body req !! "roll") "") →
  ∃ nu st',
    snd (serve xss POST_signup req st) = st'
    ∧ users st' = (users st ++ [nu])%list
    ∧ (sanitized xss (body req !! "role") "student" = "teacher" →
       fst (serve xss POST_signup req st) = Redirect "/teacher/class"
       ∧ classAssigned nu = Some "B.Tech 6th Sem (Default)"
       ∧ universityRoll nu = None ∧ semester nu = None ∧ college nu = None
       ∧ performance nu = None ∧ reportCards nu = None
       ∧ ∀ req', ∃ classStudents,
           serve xss GET_teacher_class req' st'
           = (Render 200 "teacher/class"
                [("page", VString "teacher");
                 ("teacher", VUser nu);
                 ("classStudents", VUsers classStudents);
                 ("assignedClass", VString "B.Tech 6th Sem (Default)")], st'))
    ∧ (sanitized xss (body req !! "role") "student" ≠ "student" →
       sanitized xss (body req !! "role") "student" ≠ "teacher" →
       classAssigned nu = None
       ∧ universityRoll nu = None ∧ semester nu = None ∧ college nu = None
       ∧ performance nu = None ∧ reportCards nu = None).
Proof.
  intros Hfresh.
  exists (signed_up xss req),
    {| users := (users st ++ [signed_up xss req])%list;
       session := {| user := Some (signed_up xss req) |} |}.
  rewrite serve_post_signup, (post_signup_fresh xss req st Hfresh).
  fold (role_of xss req).
  split; [reflexivity|]. split; [reflexivity|]. split.
  - intros Hrole.
    assert (Hnu : signed_up xss req
                  = {| name := sanitized xss (body req !! "name") "";
                       roll := roll_of xss req; password := password_of xss req;
                       role := "teacher";
                       profilePic := "/assets/profile-placeholder.png";
                       universityRoll := None; semester := None; college := None;
                       performance := None; reportCards := None;
                       classAssigned := Some "B.Tech 6th Sem (Default)" |}).
    { unfold signed_up, newUser. now rewrite Hrole. }
    rewrite Hrole. cbn [fst]. split; [reflexivity|].
    rewrite Hnu. cbn [classAssigned universityRoll semester college
                        performance reportCards].
    repeat split.
    intros req'. eexists. unfold serve. cbn [stack fst snd].
    etransitivity;
      [eapply route_allowed;
       [reflexivity | cbn [role]; now apply list_elem_of_singleton]
      | reflexivity].
  - intros Hs Ht. apply String.eqb_neq in Hs, Ht.
    unfold signed_up, newUser. rewrite Hs, Ht. now cbn.
Qed.

End Roles.

(** ** What the dashboards can show *)

Section Views.

Variable xss : string → string.

Lemma signed_up_not_in_class (req : Request) : in_class (signed_up xss req) = false.
Proof.
  unfold signed_up, newUser, in_class.
  destruct (String.eqb (role_of xss req) "student") eqn:Es; cbn.
  - apply andb_false_iff. now right.
  - destruct (String.eqb (role_of xss req) "teacher"); cbn; now rewrite Es.
Qed.

(** Whatever has been appended to the fixtures is outside the class. *)
Lemma reachable_class (us : list User) :
  reachable xss us →
  ∃ extra, us = (users0 ++ extra)%list ∧ List.filter in_class extra = [].
Proof.
  induction 1 as [|e req us s _ (extra & -> & Hextra)].
  - exists []. now rewrite app_nil_r.
  - destruct (serve_users xss e req {| users := (users0 ++ extra)%list; session := s |})
      as [-> | (_ & _ & ->)]; cbn [users].
    + now exists extra.
    + exists (extra ++ [signed_up xss req])%list. split; [now rewrite app_assoc|].
      rewrite List.filter_app, Hextra. cbn [List.filter app].
      now rewrite signed_up_not_in_class.
Qed.

(** X10. The class view never changes: signups create students of
    semester 1 and nothing ever updates a semester, so on every collection
    the application can hold [GET /teacher/class] shows any teacher the
    fixture student and nobody else. *)
Theorem class_list_is_fixed (us : list User) (teacher : User) (req : Request) :
  reachable xss us →
  role teacher = "teacher" →
  serve xss GET_teacher_class req
    {| users := us; session := {| user := Some teacher |} |}
  = (Render 200 "teacher/class"
       [("page", VString "teacher");
        ("teacher", VUser teacher);
        ("classStudents", VUsers [john_doe]);
        ("assignedClass", text_or_undefined (classAssigned teacher))],
     {| users := us; session := {| user := Some teacher |} |}).
Proof.
  intros Hre Hrole. apply reachable_class in Hre as (extra & -> & Hextra).
  unfold serve. cbn [stack fst snd].
  etransitivity;
    [apply (route_allowed ["teacher"] get_teacher_class req _ teacher);
     [reflexivity | rewrite Hrole; now apply list_elem_of_singleton]|].
  unfold get_teacher_class. cbn [session user users].
  now rewrite List.filter_app, Hextra.
Qed.

(** X12. [POST /admin/search], sent by an administrator, leaves the state
    as it is, echoes the [roll] field as it was submitted, and shows a
    record only if it is a student record of the collection whose roll is
    the sanitized field; it shows none exactly when no student record has
    that roll. When the rolls are pairwise distinct, the record shown is
    the only record of that roll, so the roll of a staff record finds
    nothing. *)
Theorem admin_search_shows_students (st : State) (admin : User) (req : Request) :
  user (session st) = Some admin →
  role admin = "admin" →
  ∃ found,
    serve xss POST_admin_search req st
    = (Render 200 "admin/dashboard"
         [("page", VString "admin");
          ("foundStudent", user_or_undefined found);
          ("searchQuery", text_or_undefined (body req !! "roll"))], st)
    ∧ (∀ s, found = Some s →
            s ∈ users st
            ∧ roll s = sanitized xss (body req !! "roll") ""
            ∧ role s = "student")
    ∧ (found = None ↔
       ∀ u, u ∈ users st →
            ¬ (roll u = sanitized xss (body req !! "roll") "" ∧ role u = "student"))
    ∧ (NoDup (roll <$> users st) →
       ∀ u, u ∈ users st → roll u = sanitized xss (body req !! "roll") "" →
            role u ≠ "student" → found = None).
Proof.
  intros Hsess Hrole.
  exists (find_student (sanitized xss (body req !! "roll") "") (users st)).
  split; [|split; [|split]].
  - unfold serve. cbn [stack fst snd].
    now rewrite (route_allowed ["admin"] (post_admin_search xss) req st admin Hsess)
      by (rewrite Hrole; now apply list_elem_of_singleton).
  - intros s Hs. apply find_some in Hs as [Hin Hb].
    apply andb_true_iff in Hb as [H1 H2]. apply String.eqb_eq in H1, H2.
    repeat split; try assumption. now apply list_elem_of_In.
  - split.
    + intros Hnone u Hu [H1 H2]. apply list_elem_of_In in Hu.
      unfold find_student in Hnone.
      pose proof (find_none _ _ Hnone u Hu) as Hb. cbn beta in Hb.
      rewrite H1, H2, !String.eqb_refl in Hb. discriminate Hb.
    + apply find_student_none.
  - intros Hnd u Hu Hr Hstaff.
    destruct (find_student _ (users st)) as [s|] eqn:E; [exfalso|reflexivity].
    apply find_some in E as [Hin Hb].
    apply andb_true_iff in Hb as [H1 H2]. apply String.eqb_eq in H1, H2.
    apply list_elem_of_In in Hin.
    apply list_elem_of_lookup in Hin as [i Hi].
    apply list_elem_of_lookup in Hu as [j Hj].
    assert (i = j) as ->; [|congruence].
    apply (NoDup_lookup (roll <$> users st) i j (roll s)); [exact Hnd | |].
    + now rewrite list_lookup_fmap, Hi.
    + rewrite list_lookup_fmap, Hj. cbn. now rewrite Hr, H1.
Qed.

End Views.

(** ** The life of a session *)

Section SessionLife.

Variable xss : string → string.

(** After a request the session is as it was, or empty, or holds a record
    of the collection. *)
Lemma serve_session (e : Endpoint) req st :
  session (snd (serve xss e req st)) = session st
  ∨ user (session (snd (serve xss e req st))) = None
  ∨ ∃ u, user (session (snd (serve xss e req st))) = Some u
         ∧ u ∈ users (snd (serve xss e req st)).
Proof.
  destruct e;
    try (left; now rewrite serve_state_unchanged by discriminate).
  - rewrite serve_unguarded with (h := post_login xss) by reflexivity.
    unfold post_login. destruct (List.find _ (users st)) as [found|] eqn:E.
    + right. right. exists found. split; [reflexivity|].
      apply find_some in E as [Hin _]. now apply list_elem_of_In.
    + now left.
  - right. now left.
  - rewrite serve_post_signup. unfold post_signup.
    destruct (List.find _ (users st)).
    + now left.
    + right. right. eexists. split; [reflexivity|].
      cbn [snd users]. apply elem_of_app. right. now apply list_elem_of_singleton.
Qed.

Lemma serve_keeps_members (e : Endpoint) req st u :
  u ∈ users st → u ∈ users (snd (serve xss e req st)).
Proof.
  intros Hu. destruct (serve_users xss e req st) as [-> | (_ & _ & ->)];
    [exact Hu | apply elem_of_app; now left].
Qed.

(** X11. The identity of a session is always a stored record: along
    every sequence of its own requests, of requests of other sessions and
    of expiries, starting from the fixtures with an empty session, the
    collection is one the application can hold and the user in the
    session, if there is one, is a record of that collection. *)
Theorem session_user_is_stored (st : State) :
  session_trace xss st →
  reachable xss (users st)
  ∧ ∀ u, user (session st) = Some u → u ∈ users st.
Proof.
  induction 1 as [|e req st _ [IHr IHu]|e req other st _ [IHr IHu]|st _ [IHr IHu]].
  - split; [constructor | discriminate].
  - split.
    + destruct st as [us s]. now apply (reachable_serve xss e req us s).
    + intros u Hu.
      destruct (serve_session e req st) as [Hsame | [Hnone | (v & Hv & Hin)]].
      * apply serve_keeps_members, IHu. now rewrite <- Hsame.
      * congruence.
      * congruence.
  - split.
    + now apply (reachable_serve xss e req (users st) other).
    + intros u Hu. cbn [users session] in *.
      now apply (serve_keeps_members e req {| users := users st; session := other |}), IHu.
  - split; [exact IHr | discriminate].
Qed.

End SessionLife.

(** ** The signup form *)

Section SignupFormProperties.

Variable toLowerCase : string → string.

(** X13. [GET /signup/:role] changes nothing and offers three roles
    only: when the lower-cased path segment is student, teacher or
    librarian it renders the signup form with that role selected and no
    error, and otherwise, for ["admin"] as for anything else, it answers 404
    with a fixed text. The role it selects is never ["admin"]. *)
Theorem signup_form_offers (roleParam : string) (req : Request) (st : State) :
  snd (get_signup_role toLowerCase roleParam req st) = st
  ∧ ((toLowerCase roleParam ∈ validRoles
      ∧ toLowerCase roleParam ≠ "admin"
      ∧ fst (get_signup_role toLowerCase roleParam req st)
        = Render 200 "signup-form"
            [("page", VString "signup");
             ("selectedRole", VString (toLowerCase roleParam));
             ("error", VNull)])
     ∨ ((toLowerCase roleParam ∉ validRoles)
        ∧ fst (get_signup_role toLowerCase roleParam req st)
          = Send 404 "Invalid role selected. Please return to the signup page to choose a valid role.")).
Proof.
  unfold get_signup_role.
  destruct (JsString.includes validRoles (toLowerCase roleParam)) eqn:E; cbn [negb].
  - split; [reflexivity|]. left. apply includes_true in E.
    split; [exact E|]. split; [|reflexivity].
    intros Hadmin. rewrite Hadmin in E. unfold validRoles in E.
    repeat (apply elem_of_cons in E as [E | E]; [discriminate E|]).
    now apply elem_of_nil in E.
  - split; [reflexivity|]. right. apply includes_false in E. now split.
Qed.

End SignupFormProperties.

(** ** Padding with white space *)

Section Strip.

Variable w1 : ascii → bool.
Variable w2 : ascii → ascii → bool.
Variable w3 : ascii → ascii → ascii → bool.

Lemma strip_fixed (s : string) :
  starts_ws w1 w2 w3 s = false → JsString.strip w1 w2 w3 s = s.
Proof.
  destruct s as [|a [|b [|c s3]]]; cbn; [reflexivity|..].
  - rewrite orb_false_r. now intros ->.
  - rewrite orb_false_r. intros H. apply orb_false_iff in H as [-> ->]. reflexivity.
  - intros H. apply orb_false_iff in H as [-> H].
    apply orb_false_iff in H as [-> ->]. reflexivity.
Qed.

Lemma strip_spec (n : nat) (s : string) :
  (String.length s ≤ n)%nat →
  starts_ws w1 w2 w3 (JsString.strip w1 w2 w3 s) = false
  ∧ ∃ p, s = p +:+ JsString.strip w1 w2 w3 s.
Proof.
  revert s. induction n as [|n IH]; intros s Hn.
  - destruct s; [|cbn in Hn; lia]. split; [reflexivity | now exists ""].
  - destruct s as [|a s1]; [split; [reflexivity | now exists ""]|].
    cbn [String.length] in Hn.
    cbn [JsString.strip]. destruct (w1 a) eqn:E1.
    { destruct (IH s1 ltac:(lia)) as [Hws [p Hp]]. split; [exact Hws|].
      exists (String a p). now rewrite append_cons, <- Hp. }
    destruct s1 as [|b s2].
    { split; [cbn; now rewrite E1 | now exists ""]. }
    cbn [String.length] in Hn. destruct (w2 a b) eqn:E2.
    { destruct (IH s2 ltac:(lia)) as [Hws [p Hp]]. split; [exact Hws|].
      exists (String a (String b p)). now rewrite !append_cons, <- Hp. }
    destruct s2 as [|c s3].
    { split; [cbn; now rewrite E1, E2 | now exists ""]. }
    cbn [String.length] in Hn. destruct (w3 a b c) eqn:E3.
    { destruct (IH s3 ltac:(lia)) as [Hws [p Hp]]. split; [exact Hws|].
      exists (String a (String b (String c p))). now rewrite !append_cons, <- Hp. }
    split; [cbn; now rewrite E1, E2, E3 | now exists ""].
Qed.

Lemma strip_idempotent (s : string) :
  JsString.strip w1 w2 w3 (JsString.strip w1 w2 w3 s) = JsString.strip w1 w2 w3 s.
Proof. apply strip_fixed. now apply (strip_spec (String.length s) s). Qed.

Lemma starts_ws_prefix (p q : string) :
  starts_ws w1 w2 w3 (p +:+ q) = false → starts_ws w1 w2 w3 p = false.
Proof.
  destruct p as [|a [|b [|c p3]]]; [reflexivity|..].
  - rewrite append_cons. cbn [starts_ws]. intros H.
    apply orb_false_iff in H as [-> _]. reflexivity.
  - rewrite !append_cons. cbn [starts_ws]. intros H.
    apply orb_false_iff in H as [-> H]. destruct ("" +:+ q).
    + now rewrite !orb_false_r in *.
    + apply orb_false_iff in H as [-> _]. reflexivity.
  - rewrite !append_cons. cbn [starts_ws]. trivial.
Qed.

End Strip.

Lemma list_ascii_of_append (a b : string) :
  list_ascii_of_string (a +:+ b)
  = (list_ascii_of_string a ++ list_ascii_of_string b)%list.
Proof.
  induction a as [|x a IH]; [reflexivity|].
  rewrite append_cons. cbn [list_ascii_of_string]. now rewrite IH.
Qed.

Lemma string_of_app (l k : list ascii) :
  string_of_list_ascii (l ++ k)%list
  = string_of_list_ascii l +:+ string_of_list_ascii k.
Proof.
  induction l as [|x l IH]; [reflexivity|].
  change ((x :: l) ++ k)%list with (x :: (l ++ k))%list.
  cbn [string_of_list_ascii]. now rewrite IH, append_cons.
Qed.

Lemma reverse_involutive (s : string) : JsString.reverse (JsString.reverse s) = s.
Proof.
  unfold JsString.reverse.
  now rewrite list_ascii_of_string_of_list_ascii, rev_involutive,
    string_of_list_ascii_of_string.
Qed.

Lemma reverse_append (a b : string) :
  JsString.reverse (a +:+ b) = JsString.reverse b +:+ JsString.reverse a.
Proof.
  unfold JsString.reverse.
  now rewrite list_ascii_of_append, rev_app_distr, string_of_app.
Qed.

(** [trimEnd] cuts a tail off. *)
Lemma trimEnd_prefix (t : string) : ∃ q, t = JsString.trimEnd t +:+ q.
Proof.
  unfold JsString.trimEnd.
  destruct (strip_spec JsString.ws1 (λ b a, JsString.ws2 a b)
              (λ c b a, JsString.ws3 a b c)
              (String.length (JsString.reverse t)) (JsString.reverse t)
              ltac:(lia)) as [_ [p Hp]].
  exists (JsString.reverse p).
  rewrite <- reverse_append, <- Hp. now rewrite reverse_involutive.
Qed.

(** Trimming what is trimmed changes nothing. *)
Lemma trim_idempotent (s : string) :
  JsString.trim (JsString.trim s) = JsString.trim s.
Proof.
  unfold JsString.trim.
  set (t := JsString.trimStart s).
  assert (Ht : starts_ws JsString.ws1 JsString.ws2 JsString.ws3 t = false)
    by (apply (strip_spec _ _ _ (String.length s) s); lia).
  destruct (trimEnd_prefix t) as [q Hq].
  assert (Hu : JsString.trimStart (JsString.trimEnd t) = JsString.trimEnd t).
  { apply strip_fixed. apply starts_ws_prefix with (q := q). now rewrite <- Hq. }
  rewrite Hu. unfold JsString.trimEnd at 1 2.
  now rewrite reverse_involutive, strip_idempotent.
Qed.

Section Padding.

Variable xss : string → string.
Hypothesis xss_empty : xss "" = "".

Lemma sanitized_trimmed (field : option string) :
  sanitized xss (JsString.trim <$> field) "" = sanitized xss field "".
Proof.
  destruct field as [s|]; [|reflexivity]. cbn [fmap option_fmap option_map].
  unfold sanitized, JsString.truthy.
  destruct (String.eqb_spec s "") as [->|_]; [reflexivity|].
  destruct (String.eqb_spec (JsString.trim s) "") as [->|_]; cbn [negb].
  - now rewrite xss_empty.
  - now rewrite trim_idempotent.
Qed.

(** X14. White space around a credential does not count: a request
    whose [roll] and [password] fields are those of another request with
    white space removed from both ends gets from [POST /login] the same
    answer and the same state, and [POST /signup] checks the same roll for
    both. *)
Theorem padding_is_ignored (req req' : Request) (st : State) :
  body req' !! "roll" = JsString.trim <$> body req !! "roll" →
  body req' !! "password" = JsString.trim <$> body req !! "password" →
  serve xss POST_login req' st = serve xss POST_login req st
  ∧ roll_of xss req' = roll_of xss req
  ∧ ((∃ u, u ∈ users st ∧ roll u = roll_of xss req') ↔
     (∃ u, u ∈ users st ∧ roll u = roll_of xss req)).
Proof.
  intros Hr Hp.
  assert (Er : roll_of xss req' = roll_of xss req)
    by (unfold roll_of; now rewrite Hr, sanitized_trimmed).
  split; [|split; [exact Er | now rewrite Er]].
  rewrite !serve_unguarded with (h := post_login xss) by reflexivity.
  unfold post_login. now rewrite Hr, Hp, !sanitized_trimmed.
Qed.

End Padding.

(** ** More on signup and the librarian search *)

Section More.

Variable xss : string → string.

(** X16. A roll can be registered once: after a [POST /signup] whose
    sanitized roll no record carried, a [POST /signup] that submits the same
    [roll] field, from any session and however many records have been
    appended since, is answered with the signup form and the message that
    the roll is registered, and changes neither the collection nor the
    session it came from. *)
Theorem signup_twice_rejected (req : Request) (st : State) :
  (∀ u, u ∈ users st → roll u ≠ sanitized xss (body req !! "roll") "") →
  ∃ nu,
    users (snd (serve xss POST_signup req st)) = (users st ++ [nu])%list
    ∧ ∀ later req' s,
        body req' !! "roll" = body req !! "roll" →
        serve xss POST_signup req'
          {| users := (users st ++ [nu] ++ later)%list; session := s |}
        = (Render 200 "signup-form"
             [("page", VString "signup");
              ("selectedRole",
               VString (sanitized xss (body req' !! "role") "student"));
              ("error", VString "Roll number already registered.")],
           {| users := (users st ++ [nu] ++ later)%list; session := s |}).
Proof.
  intros Hfresh. exists (signed_up xss req).
  rewrite serve_post_signup, (post_signup_fresh xss req st Hfresh).
  split; [reflexivity|].
  intros later req' s Hr.
  rewrite serve_post_signup. apply post_signup_duplicate.
  exists (signed_up xss req). split.
  - cbn [users]. apply elem_of_app. right. apply elem_of_app. left.
    now apply list_elem_of_singleton.
  - rewrite signed_up_roll. unfold roll_of. now rewrite Hr.
Qed.

(** X17. Issued books only ever appear under the fixture student: on
    every collection the application can hold, whatever roll a librarian
    searches for, the issue records are [null], or have an empty list of
    books, or are the records of John Doe with the fixture list of issued
    books. No signup can put another record in his place. *)
Theorem books_only_for_fixture (us : list User) (librarian : User) (req : Request) :
  reachable xss us →
  role librarian = "librarian" →
  ∃ records,
    serve xss POST_librarian_search_student req
      {| users := us; session := {| user := Some librarian |} |}
    = (Render 200 "librarian/control"
         [("page", VString "librarian");
          ("libraryData", VLibrary libraryData);
          ("studentIssueRecords", records);
          ("searchRoll", text_or_undefined (body req !! "roll"))],
       {| users := us; session := {| user := Some librarian |} |})
    ∧ (records = VNull
       ∨ (∃ s, s ∈ us ∧ role s = "student"
               ∧ records = VIssue {| studentName := name s; studentRoll := roll s;
                                     books := [] |})
       ∨ records = VIssue {| studentName := "John Doe"; studentRoll := "22111234";
                             books := issuedBooks libraryData |}).
Proof.
  intros Hre Hrole. eexists. split.
  - unfold serve. cbn [stack fst snd].
    etransitivity;
      [apply (route_allowed ["librarian"] (post_librarian_search_student xss)
                req _ librarian);
       [reflexivity | rewrite Hrole; now apply list_elem_of_singleton]|].
    reflexivity.
  - cbn [users].
    destruct (find_student (sanitized xss (body req !! "roll") "") us)
      as [s|] eqn:E; [|now left].
    right.
    destruct (String.eqb_spec (roll s) "22111234") as [Hjohn | Hother].
    + right. apply reachable_extends in Hre as (extra & ->).
      pose proof E as E'. apply find_some in E' as [_ Hb].
      apply andb_true_iff in Hb as [Hr _]. apply String.eqb_eq in Hr.
      rewrite <- Hr, Hjohn in E. cbn in E. injection E as <-. reflexivity.
    + left. apply find_some in E as [Hin Hb].
      apply andb_true_iff in Hb as [_ Hst]. apply String.eqb_eq in Hst.
      exists s. repeat split; [now apply list_elem_of_In | exact Hst].
Qed.

End More.

(** ** These properties at work *)

Lemma with_jane_reachable : reachable JsString.escapeHtml with_jane.
Proof.
  exact (reachable_serve JsString.escapeHtml POST_signup signup_jane users0 anonymous
           (reachable_start _)).
Qed.

Lemma users0_fresh (r : string) :
  (∀ u, u ∈ users0 → roll u ≠ r) ↔
  r ≠ "22111234" ∧ r ≠ "admin001" ∧ r ≠ "lib001" ∧ r ≠ "teacher101".
Proof.
  split.
  - intros H. repeat split; intros ->.
    + apply (H john_doe); [constructor | reflexivity].
    + apply (H admin001); [do 1 apply list_elem_of_further; constructor | reflexivity].
    + apply (H lib001); [do 2 apply list_elem_of_further; constructor | reflexivity].
    + apply (H teacher101); [do 3 apply list_elem_of_further; constructor | reflexivity].
  - intros (H1 & H2 & H3 & H4) u Hu. each_user Hu; cbn; congruence.
Qed.

Lemma roll_identifies_record_witness :
  NoDup (roll <$> with_jane)
  ∧ ∀ i, with_jane !! i = Some jane → i = 4%nat.
Proof.
  destruct (roll_identifies_record JsString.escapeHtml with_jane with_jane_reachable)
    as [Hnd Hpos].
  split; [exact Hnd|].
  intros i Hi. exact (Hpos i 4%nat jane jane Hi eq_refl eq_refl).
Defined.

Lemma collection_only_grows_witness :
  users (snd (serve JsString.escapeHtml POST_signup signup_jane (start anonymous)))
    !! 0%nat = Some john_doe
  ∧ length (users (snd (serve JsString.escapeHtml POST_login login_john
                          (start anonymous)))) = 4%nat.
Proof.
  split.
  - exact (proj1 (collection_only_grows JsString.escapeHtml POST_signup signup_jane
                    (start anonymous)) 0%nat john_doe eq_refl).
  - destruct (proj2 (collection_only_grows JsString.escapeHtml POST_login login_john
                       (start anonymous))) as [Hlen | (_ & He & _)].
    + exact Hlen.
    + discriminate He.
Defined.

Lemma other_routes_read_only_witness :
  snd (serve JsString.escapeHtml POST_admin_search (search "22111234")
         (start (signed_in admin001)))
  = start (signed_in admin001)
  ∧ snd (get_signup_role lower_latin "Admin" (page "/signup/Admin") (start anonymous))
    = start anonymous.
Proof.
  destruct (other_routes_read_only JsString.escapeHtml POST_admin_search
              (search "22111234") (start (signed_in admin001))) as [Hserve _].
  destruct (other_routes_read_only JsString.escapeHtml GET_home
              (page "/signup/Admin") (start anonymous)) as [_ Hform].
  split.
  - apply Hserve; discriminate.
  - apply (Hform lower_latin "Admin").
Defined.

Lemma logout_closes_session_witness :
  serve JsString.escapeHtml GET_student (page "/student")
    (snd (serve JsString.escapeHtml POST_logout (page "/logout")
            (start (signed_in john_doe))))
  = (Redirect "/login", start anonymous).
Proof.
  destruct (logout_closes_session JsString.escapeHtml (page "/logout")
              (start (signed_in john_doe))) as (_ & _ & _ & Hclosed).
  exact (Hclosed GET_student ["student"] get_student (page "/student") eq_refl).
Defined.

Lemma signup_then_login_witness :
  serve JsString.escapeHtml POST_login login_jane
    {| users := with_jane; session := anonymous |}
  = (Redirect "/student", {| users := with_jane; session := signed_in jane |}).
Proof.
  destruct (signup_then_login JsString.escapeHtml signup_jane (start anonymous))
    as (nu & Hnu & Hlogin).
  - apply users0_fresh. repeat split; discriminate.
  - assert (nu = jane) as ->.
    { cbn in Hnu. now injection Hnu. }
    exact (Hlogin [] login_jane anonymous eq_refl eq_refl).
Defined.

Lemma login_decides_witness :
  ∃ found,
    serve JsString.escapeHtml POST_login login_jane
      {| users := with_jane; session := anonymous |}
    = (Redirect (landing (role found)),
       {| users := with_jane; session := {| user := Some found |} |})
    ∧ ∀ v, v ∈ with_jane → roll v = "22115678" → v = found.
Proof.
  destruct (login_decides JsString.escapeHtml login_jane
              {| users := with_jane; session := anonymous |})
    as [(found & Hanswer & _ & _ & _ & Honly) | [Hfailed _]].
  - exists found. split; [exact Hanswer|].
    apply Honly. apply (bool_decide_unpack _). vm_compute. exact I.
  - discriminate Hfailed.
Defined.

Lemma landing_admits_witness :
  ∃ e, registered e = Some (GET, "/librarian/control")
       ∧ serve JsString.escapeHtml e (page "/librarian/control")
           (start (signed_in lib001))
         = snd (stack JsString.escapeHtml e) (page "/librarian/control")
             (start (signed_in lib001)).
Proof.
  destruct (landing_admits JsString.escapeHtml lib001) as (e & R & He & _ & _ & Hpass).
  - unfold known_roles. do 2 apply list_elem_of_further. constructor.
  - exists e. split; [exact He | apply Hpass].
Defined.

Lemma unknown_role_locked_out_witness :
  ∃ st' R,
    serve JsString.escapeHtml POST_signup signup_superuser (start anonymous)
    = (Redirect "/student", st')
    ∧ serve JsString.escapeHtml GET_student (page "/student") st'
      = (Render 403 "home" [("page", VString "home");
                            ("error", VString (denied R))], st').
Proof.
  destruct (unknown_role_locked_out JsString.escapeHtml signup_superuser (start anonymous))
    as (nu & st' & Hanswer & _ & _ & _ & Hdenied).
  - apply users0_fresh. repeat split; discriminate.
  - intros Hin. unfold known_roles in Hin.
    repeat (apply elem_of_cons in Hin as [Heq | Hin];
            [vm_compute in Heq; discriminate Heq|]).
    now apply elem_of_nil in Hin.
  - destruct (Hdenied GET_student (page "/student")) as (R & _ & H403);
      [discriminate|].
    exists st', R. split; [exact Hanswer | exact H403].
Defined.

Lemma signup_as_admin_witness :
  ∃ st',
    serve JsString.escapeHtml POST_signup signup_admin (start anonymous)
    = (Redirect "/admin/dashboard", st')
    ∧ fst (serve JsString.escapeHtml POST_admin_search (search "22111234") st')
      = Render 200 "admin/dashboard"
          [("page", VString "admin"); ("foundStudent", VUser john_doe);
           ("searchQuery", VString "22111234")].
Proof.
  destruct (signup_as_admin JsString.escapeHtml signup_admin (start anonymous))
    as (nu & st' & Hanswer & Husers & _ & _ & _ & Hsearch).
  - apply users0_fresh. repeat split; discriminate.
  - reflexivity.
  - exists st'. split; [exact Hanswer|].
    rewrite Hsearch. unfold post_admin_search. rewrite Husers. reflexivity.
Defined.

Lemma signup_role_fields_witness :
  ∃ nu,
    users (snd (serve JsString.escapeHtml POST_signup signup_teacher (start anonymous)))
    = [john_doe; admin001; lib001; teacher101; nu]
    ∧ classAssigned nu = Some "B.Tech 6th Sem (Default)"
    ∧ semester nu = None.
Proof.
  destruct (signup_role_fields JsString.escapeHtml signup_teacher (start anonymous))
    as (nu & st' & <- & Husers & Hteacher & _).
  - apply users0_fresh. repeat split; discriminate.
  - destruct (Hteacher eq_refl) as (_ & Hclass & _ & Hsem & _).
    exists nu. split; [exact Husers|]. now split.
Defined.

Lemma class_list_is_fixed_witness :
  fst (serve JsString.escapeHtml GET_teacher_class (page "/teacher/class")
         {| users := with_jane; session := signed_in teacher101 |})
  = Render 200 "teacher/class"
      [("page", VString "teacher"); ("teacher", VUser teacher101);
       ("classStudents", VUsers [john_doe]);
       ("assignedClass", VString "B.Tech 6th Sem")].
Proof.
  exact (f_equal fst (class_list_is_fixed JsString.escapeHtml with_jane teacher101
                        (page "/teacher/class") with_jane_reachable eq_refl)).
Defined.

Lemma session_user_is_stored_witness :
  jane ∈ users (snd (serve JsString.escapeHtml POST_signup signup_jane (start anonymous))).
Proof.
  apply (session_user_is_stored JsString.escapeHtml
           (snd (serve JsString.escapeHtml POST_signup signup_jane (start anonymous)))).
  - apply trace_own. apply trace_start.
  - reflexivity.
Defined.

Lemma admin_search_shows_students_witness :
  ∃ found,
    fst (serve JsString.escapeHtml POST_admin_search (search "lib001")
           (start (signed_in admin001)))
    = Render 200 "admin/dashboard"
        [("page", VString "admin"); ("foundStudent", user_or_undefined found);
         ("searchQuery", VString "lib001")]
    ∧ found = None.
Proof.
  destruct (admin_search_shows_students JsString.escapeHtml (start (signed_in admin001))
              admin001 (search "lib001") eq_refl eq_refl)
    as (found & Hanswer & _ & _ & Hstaff).
  exists found. split; [now rewrite Hanswer|].
  apply (Hstaff (reachable_rolls_distinct JsString.escapeHtml users0 (reachable_start _))
           lib001).
  - do 2 apply list_elem_of_further. constructor.
  - reflexivity.
  - discriminate.
Defined.

Lemma padding_is_ignored_witness :
  serve JsString.escapeHtml POST_login login_john (start anonymous)
  = serve JsString.escapeHtml POST_login login_john_padded (start anonymous).
Proof.
  apply (padding_is_ignored JsString.escapeHtml eq_refl login_john_padded login_john
           (start anonymous)); reflexivity.
Defined.

Lemma signup_twice_rejected_witness :
  serve JsString.escapeHtml POST_signup signup_jane
    {| users := with_jane; session := anonymous |}
  = (Render 200 "signup-form"
       [("page", VString "signup"); ("selectedRole", VString "student");
        ("error", VString "Roll number already registered.")],
     {| users := with_jane; session := anonymous |}).
Proof.
  destruct (signup_twice_rejected JsString.escapeHtml signup_jane (start anonymous))
    as (nu & Hnu & Hagain).
  - apply users0_fresh. repeat split; discriminate.
  - assert (nu = jane) as ->.
    { cbn in Hnu. now injection Hnu. }
    exact (Hagain [] signup_jane anonymous eq_refl).
Defined.

Lemma books_only_for_fixture_witness :
  ∃ records,
    property "studentIssueRecords"
      match fst (serve JsString.escapeHtml POST_librarian_search_student
                   (search "22115678")
                   {| users := with_jane; session := signed_in lib001 |}) with
      | Render _ _ data => data
      | _ => []
      end = Some records
    ∧ (records = VNull
       ∨ (∃ s, s ∈ with_jane ∧ role s = "student"
               ∧ records = VIssue {| studentName := name s; studentRoll := roll s;
                                     books := [] |})
       ∨ records = VIssue {| studentName := "John Doe"; studentRoll := "22111234";
                             books := issuedBooks libraryData |}).
Proof.
  destruct (books_only_for_fixture JsString.escapeHtml with_jane lib001
              (search "22115678") with_jane_reachable eq_refl)
    as (records & Hanswer & Hcases).
  exists records. split; [|exact Hcases].
  change (signed_in lib001) with {| user := Some lib001 |}.
  now rewrite Hanswer.
Defined.

Example signup_form_by_case :
  fst (get_signup_role lower_latin "Teacher" (page "/signup/Teacher") (start anonymous))
  = Render 200 "signup-form"
      [("page", VString "signup"); ("selectedRole", VString "teacher");
       ("error", VNull)]
  ∧ fst (get_signup_role lower_latin "admin" (page "/signup/admin") (start anonymous))
    = Send 404 "Invalid role selected. Please return to the signup page to choose a valid role.".
Proof. split; reflexivity. Qed.
